(** * ezdxf: low-level tag types and the upright transform

    A shallow embedding of [ezdxf/lldxf/types.py] (group-code type table,
    scalar and vertex tags, their text records) and of [ezdxf/upright.py]
    (flipping an inverted OCS into the WCS-aligned one), with the properties
    of the specification stated over it. *)

From Stdlib Require Import ZArith List String Ascii Floats DecimalString DecimalPos.
From stdpp Require Import gmap strings list fin_maps.

Local Open Scope Z_scope.

(** ** Errors

    Python exceptions are results: [Ok v] for a returned value, [Raise x]
    for a raised exception. *)

Inductive pyexc : Type :=
| ValueError
| TypeError
| OverflowError
| ZeroDivisionError.

Inductive result (A : Type) : Type :=
| Ok (a : A)
| Raise (x : pyexc).
Arguments Ok {A} a.
Arguments Raise {A} x.

Definition rbind {A B} (r : result A) (k : A -> result B) : result B :=
  match r with
  | Ok a => k a
  | Raise x => Raise x
  end.

Fixpoint rmapM {A B} (f : A -> result B) (l : list A) : result (list B) :=
  match l with
  | [] => Ok []
  | a :: l' => rbind (f a) (fun b => rbind (rmapM f l') (fun bs => Ok (b :: bs)))
  end.

(** ** Python text

    A text is a string of 8-bit characters; [nl] is the newline. *)

Definition nl : string := String "010"%char EmptyString.
Definition newline : ascii := "010"%char.

(** Number of newline characters of a text. *)
Fixpoint count_nl (s : string) : nat :=
  match s with
  | EmptyString => O
  | String c s' => ((if Ascii.eqb c newline then 1 else 0) + count_nl s')%nat
  end.

(** [str(n)] for an integer: the decimal numeral, with a minus sign. *)
Definition str_int (n : Z) : string := NilZero.string_of_int (Z.to_int n).

(** [s.rjust(w)]: spaces on the left up to width [w], nothing cut. *)
Definition spaces (n : nat) : string := string_of_list_ascii (repeat " "%char n).
Definition rjust (w : nat) (s : string) : string :=
  (spaces (w - String.length s) ++ s)%string.

(** Whitespace that [int()] strips from both ends of its text argument: the
    blank and the characters 9 to 13. *)
Definition is_space (c : ascii) : bool :=
  let n := nat_of_ascii c in
  ((9 <=? n) && (n <=? 13) || (n =? 32))%nat.

Definition is_digit (c : ascii) : bool :=
  let n := nat_of_ascii c in ((48 <=? n) && (n <=? 57))%nat.

Definition digit_val (c : ascii) : Z := Z.of_nat (nat_of_ascii c) - 48.

Fixpoint lstrip (l : list ascii) : list ascii :=
  match l with
  | c :: l' => if is_space c then lstrip l' else l
  | [] => []
  end.

Definition strip (l : list ascii) : list ascii := rev (lstrip (rev (lstrip l))).

(** Digits of a decimal literal, a single underscore allowed between two
    digits.  [prev] tells whether the previous character was a digit. *)
Fixpoint digits_go (acc : Z) (prev : bool) (l : list ascii) : option Z :=
  match l with
  | [] => if prev then Some acc else None
  | c :: l' =>
      if is_digit c then digits_go (10 * acc + digit_val c) true l'
      else if Ascii.eqb c "_"%char then
        if prev then
          match l' with
          | d :: _ => if is_digit d then digits_go acc false l' else None
          | [] => None
          end
        else None
      else None
  end.

(** [int(s)] for a text [s], base 10, as Python 3 reads it: [None] is
    [ValueError]. *)
Definition int_of_str (s : string) : option Z :=
  match strip (list_ascii_of_string s) with
  | [] => None
  | c :: l =>
      if Ascii.eqb c "-"%char then Z.opp <$> digits_go 0 false l
      else if Ascii.eqb c "+"%char then digits_go 0 false l
      else digits_go 0 false (c :: l)
  end.

(** ** Python's [%] formatting, for the conversions the tag format uses:
    [%d] with an optional minimum width, and [%s]. *)

Inductive fmtarg : Type :=
| AInt (n : Z)
| AText (s : string)
| ANone.

(** What [%d] and [%s] print for an argument: [%d] needs a number, [%s]
    takes the [str] of anything. *)
Definition conv_d (a : fmtarg) : result string :=
  match a with
  | AInt n => Ok (str_int n)
  | AText _ | ANone => Raise TypeError
  end.

Definition conv_s (a : fmtarg) : string :=
  match a with
  | AInt n => str_int n
  | AText s => s
  | ANone => "None"
  end.

(** The formatter reads the format left to right; [spec] is [Some w] while it
    is inside a conversion specifier whose width digits so far read [w]. *)
Fixpoint format_go (fmt : string) (spec : option nat) (args : list fmtarg)
  : result string :=
  match fmt with
  | EmptyString =>
      match spec, args with
      | None, [] => Ok EmptyString
      | None, _ :: _ => Raise TypeError
      | Some _, _ => Raise ValueError
      end
  | String c rest =>
      match spec with
      | None =>
          if Ascii.eqb c "%"%char then format_go rest (Some O) args
          else rbind (format_go rest None args) (fun out => Ok (String c out))
      | Some w =>
          if is_digit c then
            format_go rest (Some (10 * w + Z.to_nat (digit_val c))%nat) args
          else if Ascii.eqb c "d"%char then
            match args with
            | a :: args' =>
                rbind (conv_d a) (fun field =>
                rbind (format_go rest None args') (fun out =>
                Ok (rjust w field ++ out)%string))
            | [] => Raise TypeError
            end
          else if Ascii.eqb c "s"%char then
            match args with
            | a :: args' =>
                rbind (format_go rest None args') (fun out =>
                Ok (rjust w (conv_s a) ++ out)%string)
            | [] => Raise TypeError
            end
          else Raise ValueError
      end
  end.

Definition py_format (fmt : string) (args : list fmtarg) : result string :=
  format_go fmt None args.

(** ** Values

    A raw value is what a caster may be handed: a text, a number or a
    sequence.  A tag value is what a tag stores after decoding. *)

#[warnings="-register-all"]
Inductive raw : Type :=
| RStr (s : string)
| RInt (n : Z)
| RFloat (f : float)
| RSeq (l : list raw).

Inductive tagvalue : Type :=
| VStr (s : string)
| VInt (n : Z)
| VFloat (f : float)
| VPoint (p : list float)
| VNone.

(** Python's conversions between floats and the other types are not part of
    the repository; they are an interface.  [None] from a parser is
    [ValueError], [None] from [float_of_int] is [OverflowError]. *)
Class PyFloatOps : Type := {
  float_of_str : string -> option float;   (* float(s) *)
  float_of_int : Z -> option float;        (* float(n) *)
  int_of_float : float -> result Z;        (* int(f)   *)
  str_of_float : float -> string;          (* str(f)   *)
  str_of_seq : list raw -> string          (* str(seq) *)
}.

(** * Module [types]: [ezdxf/lldxf/types.py] *)

Module types.

Definition TAG_STRING_FORMAT : string := ("%3d" ++ nl ++ "%s" ++ nl)%string.

(** [DXFTag]: slots [code] and [_value]; the code is an integer, or [None]
    in [NONE_TAG]. *)
Record DXFTag : Type := mkDXFTag {
  tag_code : option Z;
  tag_value : tagvalue
}.

Definition NONE_TAG : DXFTag := mkDXFTag None VNone.

(** [DXFVertex]: slot [_value] is the [array('d', value)] of the components. *)
Record DXFVertex : Type := mkDXFVertex {
  vertex_code : Z;
  vertex_value : list float
}.

(** The four casters that [TYPE_TABLE] registers or falls back to. *)
Inductive caster : Type :=
| point_tuple
| float_
| int_
| ustr.

Global Instance caster_eq_dec : EqDecision caster.
Proof. solve_decision. Defined.

(** [range(a, b)] as the list of its integers. *)
Definition range (a b : Z) : list Z :=
  map (fun i => a + Z.of_nat i) (seq 0 (Z.to_nat (b - a))).

(** [_build_type_table]: the rules are applied in order and every code of a
    rule is (re)assigned to the rule's caster. *)
Definition _build_type_table (types : list (caster * list Z)) : gmap Z caster :=
  foldl (fun table rule =>
           foldl (fun t code => <[code := fst rule]> t) table (snd rule))
        ∅ types.

(** The literal list passed to [_build_type_table]. *)
Definition TYPE_RULES : list (caster * list Z) :=
  [ (point_tuple, range 10 20);
    (float_, range 20 60);
    (int_, range 60 100);
    (point_tuple, range 110 113);
    (float_, range 113 150);
    (int_, range 160 170);
    (int_, range 170 180);
    (point_tuple, [210]);
    (float_, range 211 240);
    (int_, range 270 290);
    (int_, range 290 300);
    (int_, range 370 390);
    (int_, range 400 410);
    (int_, range 420 430);
    (int_, range 440 460);
    (float_, range 460 470);
    (point_tuple, range 1010 1020);
    (float_, range 1020 1060);
    (int_, range 1060 1072) ].

Definition TYPE_TABLE : gmap Z caster := _build_type_table TYPE_RULES.

(** [types.get(code, ustr)] *)
Definition table_get (types : gmap Z caster) (code : Z) : caster :=
  default ustr (types !! code).

Definition tag_type (code : Z) : caster := table_get TYPE_TABLE code.

(** The reading of the rule list that the specification gives: the caster of
    the last rule, in registration order, whose code set contains the code. *)
Fixpoint last_rule (types : list (caster * list Z)) (code : Z) : option caster :=
  match types with
  | [] => None
  | rule :: rest =>
      match last_rule rest code with
      | Some d => Some d
      | None => if bool_decide (code ∈ snd rule) then Some (fst rule) else None
      end
  end.

(** The check that a rule list has no rule overridden by a later one: every
    code of every rule is classified as the caster of that rule. *)
Definition rules_agree (rules : list (caster * list Z)) : bool :=
  forallb (fun rule =>
             forallb (fun c => bool_decide (table_get (_build_type_table rules) c = fst rule))
                     (snd rule))
          rules.

Definition POINT_CODES : gset Z :=
  list_to_set
    [ 10; 11; 12; 13; 14; 15; 16; 17; 18; 19;
      110; 111; 112; 210;
      1010; 1011; 1012; 1013; 1014; 1015; 1016; 1017; 1018; 1019 ].

Definition GENERAL_MARKER : Z := 0.
Definition SUBCLASS_MARKER : Z := 100.
Definition APP_DATA_MARKER : Z := 102.
Definition EXT_DATA_MARKER : Z := 1001.
Definition GROUP_MARKERS : gset Z :=
  list_to_set [GENERAL_MARKER; SUBCLASS_MARKER; APP_DATA_MARKER; EXT_DATA_MARKER].
Definition BINARY_FLAGS : gset Z := list_to_set [70; 90].
Definition HANDLE_CODES : gset Z := list_to_set [5; 105].
Definition POINTER_CODES : gset Z :=
  list_to_set (range 320 370 ++ range 390 400 ++ [480; 481; 1005]).
Definition HEX_HANDLE_CODES : gset Z :=
  list_to_set (elements HANDLE_CODES ++ elements POINTER_CODES).

Definition is_pointer_code (code : Z) : bool := bool_decide (code ∈ POINTER_CODES).
Definition is_point_code (code : Z) : bool := bool_decide (code ∈ POINT_CODES).

(** [is_point_tag(tag)]: [tag[0] in POINT_CODES] *)
Definition is_point_tag (tag : DXFTag) : bool :=
  match tag_code tag with
  | Some code => is_point_code code
  | None => false
  end.

(** *** Casters *)

Section casters.
Context `{PyFloatOps}.

(** [float(value)] *)
Definition py_float (value : raw) : result float :=
  match value with
  | RFloat f => Ok f
  | RInt n => match float_of_int n with Some f => Ok f | None => Raise OverflowError end
  | RStr s => match float_of_str s with Some f => Ok f | None => Raise ValueError end
  | RSeq _ => Raise TypeError
  end.

(** [int(value)] *)
Definition py_int (value : raw) : result Z :=
  match value with
  | RInt n => Ok n
  | RFloat f => int_of_float f
  | RStr s => match int_of_str s with Some n => Ok n | None => Raise ValueError end
  | RSeq _ => Raise TypeError
  end.

(** [str(value)]; a text is passed through. *)
Definition py_str (value : raw) : string :=
  match value with
  | RStr s => s
  | RInt n => str_int n
  | RFloat f => str_of_float f
  | RSeq l => str_of_seq l
  end.

(** Iterating a raw value: a sequence yields its items, a text its
    characters, a number is not iterable. *)
Definition py_iter (value : raw) : result (list raw) :=
  match value with
  | RSeq l => Ok l
  | RStr s => Ok (map (fun c => RStr (String c EmptyString)) (list_ascii_of_string s))
  | RInt _ | RFloat _ => Raise TypeError
  end.

(** [point_tuple]: [tuple(float(f) for f in value)] *)
Definition run_point_tuple (value : raw) : result (list float) :=
  rbind (py_iter value) (rmapM py_float).

(** Calling a caster on a value. *)
Definition call (f : caster) (value : raw) : result tagvalue :=
  match f with
  | point_tuple => rbind (run_point_tuple value) (fun p => Ok (VPoint p))
  | float_ => rbind (py_float value) (fun x => Ok (VFloat x))
  | int_ => rbind (py_int value) (fun n => Ok (VInt n))
  | ustr => Ok (VStr (py_str value))
  end.

(** [cast_tag_value(code, value, types=TYPE_TABLE)] *)
Definition cast_tag_value_with (code : Z) (value : raw) (types : gmap Z caster)
  : result tagvalue :=
  call (table_get types code) value.

Definition cast_tag_value (code : Z) (value : raw) : result tagvalue :=
  cast_tag_value_with code value TYPE_TABLE.

(** *** Tags *)

(** [str] of a stored tag value; a point prints as a tuple. *)
Definition str_tuple (p : list float) : string :=
  match p with
  | [] => "()"
  | [x] => "(" ++ str_of_float x ++ ",)"
  | x :: xs =>
      "(" ++ str_of_float x
          ++ fold_right (fun y acc => ", " ++ str_of_float y ++ acc) ")" xs
  end%string.

Definition str_value (v : tagvalue) : string :=
  match v with
  | VStr s => s
  | VInt n => str_int n
  | VFloat f => str_of_float f
  | VPoint p => str_tuple p
  | VNone => "None"
  end.

(** [TAG_STRING_FORMAT % (code, value)] *)
Definition format_tag (code : option Z) (value : tagvalue) : result string :=
  py_format TAG_STRING_FORMAT
    [match code with Some n => AInt n | None => ANone end; AText (str_value value)].

(** [DXFTag.dxfstr] *)
Definition DXFTag_dxfstr (t : DXFTag) : result string :=
  format_tag (tag_code t) (tag_value t).

(** [DXFVertex.dxftags]: [zip((c, c+10, c+20), self.value)] *)
Definition dxftags (v : DXFVertex) : list (Z * float) :=
  let c := vertex_code v in
  zip [c; c + 10; c + 20] (vertex_value v).

(** [DXFVertex.dxfstr]: [''.join(TAG_STRING_FORMAT % tag for tag in self.dxftags())] *)
Fixpoint join_records (tags : list (Z * float)) : result string :=
  match tags with
  | [] => Ok EmptyString
  | tag :: rest =>
      rbind (format_tag (Some (fst tag)) (VFloat (snd tag))) (fun r =>
      rbind (join_records rest) (fun out => Ok (r ++ out)%string))
  end.

Definition DXFVertex_dxfstr (v : DXFVertex) : result string :=
  join_records (dxftags v).

(** [strtag(tag)]: [TAG_STRING_FORMAT % tuple(tag)] *)
Definition strtag (tag : DXFTag) : result string :=
  format_tag (tag_code tag) (tag_value tag).

End casters.

End types.

(** * Module [upright]: [ezdxf/upright.py] *)

Module upright.

(** ** Vectors and the entity interface

    [Vec3], [OCS] and the entity classes live outside the two modules; they
    are modelled by their interface. *)

Record Vec3 : Type := mkVec3 { vx : float; vy : float; vz : float }.

Definition Vec3_neg (v : Vec3) : Vec3 :=
  mkVec3 (- vx v)%float (- vy v)%float (- vz v)%float.

(** Modelled from the spec: [Z_AXIS], the default up-axis [(0, 0, 1)]. *)
Definition Z_AXIS : Vec3 := mkVec3 0%float 0%float 1%float.

(** Modelled from the spec: the vector/OCS primitive the transform consumes,
    [normalize(vector) -> unit vector], [approximately_equal(v1, v2)] and the
    OCS-to-WCS conversion of the OCS given by an extrusion axis.  Normalizing
    divides by the length of the vector and raises where that division does
    ([ZeroDivisionError] on the null vector). *)
Class VecOps : Type := {
  normalize : Vec3 -> result Vec3;     (* Vec3.normalize()  *)
  isclose : Vec3 -> Vec3 -> bool;      (* Vec3.isclose(v)   *)
  to_wcs : Vec3 -> Vec3 -> Vec3        (* OCS(axis).to_wcs(v) *)
}.

(** Modelled from the spec: the entity attribute namespace, a key-value view
    with existence check, get, set and delete-if-present.  Every DXF
    attribute has the type of its definition, so the store is kept by type:
    point attributes, floating-point attributes and all the others (as
    text). *)
Record DXFNamespace : Type := mkDXFNamespace {
  points : gmap string Vec3;
  scalars : gmap string float;
  others : gmap string string
}.

(** What reading an attribute that is not set gives is decided by the DXF
    attribute definitions, outside the two modules: the default of the
    attribute, or [None] when it has none.  A parameter. *)
Class AttribDefaults : Type := {
  point_default : string -> option Vec3;
  scalar_default : string -> option float
}.

(** [const.VERTEXNAMES], the fixed list of the vertex attribute names of a
    planar quad, is defined outside the two modules.  A parameter. *)
Class DXFConst : Type := {
  VERTEXNAMES : list string
}.

(** Entity introspection: [isinstance(entity, DXFGraphic)], [is_alive],
    [dxftype()] and the namespace [dxf]. *)
Record Entity : Type := mkEntity {
  is_graphic : bool;
  is_alive : bool;
  dxftype : string;
  dxf : DXFNamespace
}.

(** The entity with another namespace. *)
Definition with_dxf (entity : Entity) (ns : DXFNamespace) : Entity :=
  mkEntity (is_graphic entity) (is_alive entity) (dxftype entity) ns.

(** ** Statements that mutate a namespace

    A computation takes the namespace and gives back a result with the
    namespace as the statements left it; an exception stops the rest. *)

Definition M (A : Type) : Type := DXFNamespace -> result A * DXFNamespace.

Definition ret {A} (a : A) : M A := fun ns => (Ok a, ns).

Definition bind {A B} (m : M A) (k : A -> M B) : M B :=
  fun ns =>
    match m ns with
    | (Ok a, ns') => k a ns'
    | (Raise x, ns') => (Raise x, ns')
    end.

Definition lift {A} (r : result A) : M A := fun ns => (r, ns).

Notation "x <- m ;; k" := (bind m (fun x => k))
  (at level 100, m at next level, right associativity).
Notation "m ;;; k" := (bind m (fun _ => k))
  (at level 100, right associativity).

Section transform.
Context `{VecOps} `{AttribDefaults} `{DXFConst}.

(** [dxf.hasattr(name)] *)
Definition hasattr_point (name : string) : M bool :=
  fun ns => (Ok (bool_decide (is_Some (points ns !! name))), ns).
Definition hasattr_scalar (name : string) : M bool :=
  fun ns => (Ok (bool_decide (is_Some (scalars ns !! name))), ns).

(** [dxf.name] and [dxf.get(name)]: the stored value, else the default. *)
Definition read_point (ns : DXFNamespace) (name : string) : option Vec3 :=
  match points ns !! name with
  | Some v => Some v
  | None => point_default name
  end.
Definition read_scalar (ns : DXFNamespace) (name : string) : option float :=
  match scalars ns !! name with
  | Some v => Some v
  | None => scalar_default name
  end.
Definition getattr_point (name : string) : M (option Vec3) :=
  fun ns => (Ok (read_point ns name), ns).
Definition getattr_scalar (name : string) : M (option float) :=
  fun ns => (Ok (read_scalar ns name), ns).

(** [dxf.name = value] and [dxf.set(name, value)] *)
Definition setattr_point (name : string) (v : Vec3) : M unit :=
  fun ns => (Ok tt, mkDXFNamespace (<[name := v]> (points ns)) (scalars ns) (others ns)).
Definition setattr_scalar (name : string) (v : float) : M unit :=
  fun ns => (Ok tt, mkDXFNamespace (points ns) (<[name := v]> (scalars ns)) (others ns)).

(** [dxf.discard(name)]: delete if present. *)
Definition discard_point (name : string) : M unit :=
  fun ns => (Ok tt, mkDXFNamespace (delete name (points ns)) (scalars ns) (others ns)).

(** [Vec3(value)]: [None] is not a vector. *)
Definition Vec3_of (value : option Vec3) : result Vec3 :=
  match value with
  | Some v => Ok v
  | None => Raise TypeError
  end.

(** Arithmetic on a value that may be [None]. *)
Definition py_neg (value : option float) : result float :=
  match value with
  | Some x => Ok (- x)%float
  | None => Raise TypeError
  end.

Definition FLIPPED_Z_AXIS : Vec3 := Vec3_neg Z_AXIS.

(** [math.pi] *)
Definition math_pi : float := 0x1.921fb54442d18p+1%float.

(** [_flip_deg_angle] and [_flip_rad_angle] on a float, and on a value that
    may be [None]. *)
Definition flip_deg (angle : float) : float :=
  ((if (0 <=? angle) then 180 else -180) - angle)%float.

Definition flip_rad (angle : float) : float :=
  ((if (0 <=? angle) then math_pi else - math_pi) - angle)%float.

Definition _flip_deg_angle (angle : option float) : result float :=
  match angle with
  | Some a => Ok (flip_deg a)
  | None => Raise TypeError
  end.

Definition _flip_rad_angle (angle : option float) : result float :=
  match angle with
  | Some a => Ok (flip_rad a)
  | None => Raise TypeError
  end.

(** [FLIPPED_OCS.to_wcs(vertex)] *)
Definition _flip_vertex (vertex : option Vec3) : result Vec3 :=
  rbind (Vec3_of vertex) (fun v => Ok (to_wcs FLIPPED_Z_AXIS v)).

Definition _flip_existing_vertex (name : string) : M unit :=
  h <- hasattr_point name ;;
  if h then
    v <- getattr_point name ;;
    vertex <- lift (_flip_vertex v) ;;
    setattr_point name vertex
  else ret tt.

Definition _flip_thickness : M unit :=
  h <- hasattr_scalar "thickness" ;;
  if h then
    t <- getattr_scalar "thickness" ;;
    v <- lift (py_neg t) ;;
    setattr_scalar "thickness" v
  else ret tt.

Definition _flip_circle : M unit :=
  c <- getattr_point "center" ;;
  v <- lift (_flip_vertex c) ;;
  setattr_point "center" v ;;;
  _flip_thickness ;;;
  discard_point "extrusion".

Definition _flip_arc : M unit :=
  _flip_circle ;;;
  end_angle <- getattr_scalar "end_angle" ;;
  start_angle <- getattr_scalar "start_angle" ;;
  a <- lift (_flip_deg_angle start_angle) ;;
  setattr_scalar "end_angle" a ;;;
  b <- lift (_flip_deg_angle end_angle) ;;
  setattr_scalar "start_angle" b.

Fixpoint for_each (names : list string) (body : string -> M unit) : M unit :=
  match names with
  | [] => ret tt
  | name :: rest => body name ;;; for_each rest body
  end.

Definition _flip_solid : M unit :=
  for_each VERTEXNAMES _flip_existing_vertex ;;;
  _flip_thickness ;;;
  discard_point "extrusion".

Definition _flip_ellipse : M unit :=
  e <- getattr_scalar "end_param" ;;
  end_param <- lift (py_neg e) ;;
  s <- getattr_scalar "start_param" ;;
  v <- lift (py_neg s) ;;
  setattr_scalar "end_param" v ;;;
  setattr_scalar "start_param" end_param ;;;
  discard_point "extrusion".

Definition SIMPLE_UPRIGHT_TOOLS : gmap string (M unit) :=
  <["CIRCLE" := _flip_circle]>
  (<["ARC" := _flip_arc]>
  (<["SOLID" := _flip_solid]>
  (<["TRACE" := _flip_solid]>
  (<["ELLIPSE" := _flip_ellipse]> ∅)))).

(** [_flip_complex_entity]: [pass] *)
Definition _flip_complex_entity (entity : Entity) : result unit * Entity :=
  (Ok tt, entity).

(** A value [None] of the dict is a key without a tool. *)
Definition COMPLEX_UPRIGHT_TOOLS
  : gmap string (option (Entity -> result unit * Entity)) :=
  <["LWPOLYLINE" := Some _flip_complex_entity]>
  (<["POLYLINE" := None]>
  (<["HATCH" := None]>
  (<["MPOLYGON" := None]>
  (<["INSERT" := None]> ∅)))).

(** Running a namespace tool on the namespace of an entity. *)
Definition on_dxf (tool : M unit) (entity : Entity) : result unit * Entity :=
  let '(r, ns) := tool (dxf entity) in (r, with_dxf entity ns).

(** [upright(entity)]: the result and the entity as the call left it. *)
Definition upright (entity : Entity) : result unit * Entity :=
  if negb (is_graphic entity
           && is_alive entity
           && bool_decide (is_Some (points (dxf entity) !! "extrusion")))
  then (Ok tt, entity)
  else
    match Vec3_of (read_point (dxf entity) "extrusion") with
    | Raise x => (Raise x, entity)
    | Ok v =>
        match normalize v with
        | Raise x => (Raise x, entity)
        | Ok extrusion =>
            if negb (isclose extrusion FLIPPED_Z_AXIS) then (Ok tt, entity)
            else
              match SIMPLE_UPRIGHT_TOOLS !! dxftype entity with
              | Some simple_tool => on_dxf simple_tool entity
              | None =>
                  match COMPLEX_UPRIGHT_TOOLS !! dxftype entity with
                  | Some (Some complex_tool) => complex_tool entity
                  | Some None | None => (Ok tt, entity)
                  end
              end
        end
    end.

(** [upright_all(entities)]: the entities in order; an exception ends the
    loop. *)
Fixpoint upright_all (entities : list Entity) : result unit * list Entity :=
  match entities with
  | [] => (Ok tt, [])
  | e :: rest =>
      match upright e with
      | (Ok _, e') =>
          let '(r, rest') := upright_all rest in (r, e' :: rest')
      | (Raise x, e') => (Raise x, e' :: rest)
      end
  end.

(** ** What the handlers leave behind

    The namespaces that the statements below name: thickness negated where
    it is set, and the namespace after a circle, an arc and an ellipse. *)

Definition neg_thickness (m : gmap string float) : gmap string float :=
  match m !! "thickness" with
  | Some t => <["thickness" := (- t)%float]> m
  | None => m
  end.

Definition circle_result (c : Vec3) (ns : DXFNamespace) : DXFNamespace :=
  mkDXFNamespace
    (delete "extrusion" (<["center" := to_wcs FLIPPED_Z_AXIS c]> (points ns)))
    (neg_thickness (scalars ns))
    (others ns).

Definition arc_result (c : Vec3) (s e : float) (ns : DXFNamespace) : DXFNamespace :=
  mkDXFNamespace
    (delete "extrusion" (<["center" := to_wcs FLIPPED_Z_AXIS c]> (points ns)))
    (<["start_angle" := flip_deg e]>
       (<["end_angle" := flip_deg s]> (neg_thickness (scalars ns))))
    (others ns).

Definition ellipse_result (s e : float) (ns : DXFNamespace) : DXFNamespace :=
  mkDXFNamespace
    (delete "extrusion" (points ns))
    (<["start_param" := (- e)%float]> (<["end_param" := (- s)%float]> (scalars ns)))
    (others ns).

(** The guard of [upright] passes: a live graphical entity whose extrusion
    is set and normalizes to the flipped axis. *)
Definition flips (entity : Entity) : Prop :=
  is_graphic entity = true /\ is_alive entity = true /\
  exists x n, points (dxf entity) !! "extrusion" = Some x
              /\ normalize x = Ok n
              /\ isclose n FLIPPED_Z_AXIS = true.

(** The guard of [upright] passes up to the call of [normalize], and that
    call raises [x]. *)
Definition normalize_raises (entity : Entity) (x : pyexc) : Prop :=
  is_graphic entity = true /\ is_alive entity = true /\
  exists v, points (dxf entity) !! "extrusion" = Some v
            /\ normalize v = Raise x.

(** The points after [_flip_existing_vertex] has gone through a list of
    names, and the namespace after a quad. *)
Definition flip_points (names : list string) (pts : gmap string Vec3)
  : gmap string Vec3 :=
  foldl (fun m name => alter (to_wcs FLIPPED_Z_AXIS) name m) pts names.

Definition solid_result (ns : DXFNamespace) : DXFNamespace :=
  mkDXFNamespace
    (delete "extrusion" (flip_points VERTEXNAMES (points ns)))
    (neg_thickness (scalars ns))
    (others ns).

(** The attribute names that the tools assign to or discard. *)
Definition written_points : gset string :=
  {["center"; "extrusion"]} ∪ list_to_set VERTEXNAMES.

Definition written_scalars : gset string :=
  {["thickness"; "start_angle"; "end_angle"; "start_param"; "end_param"]}.

(** A computation that writes no point attribute outside [P], no scalar
    attribute outside [S] and none of the other attributes, whether it
    returns or raises. *)
Definition preserves (P S : gset string) {A} (m : M A) : Prop :=
  forall ns,
    others (m ns).2 = others ns
    /\ (forall k, k ∉ P -> points (m ns).2 !! k = points ns !! k)
    /\ (forall k, k ∉ S -> scalars (m ns).2 !! k = scalars ns !! k).

(** An attribute that the tool of the kind reads has no value, stored or
    default. *)
Definition unreadable (entity : Entity) : Prop :=
  (dxftype entity = "CIRCLE" /\ read_point (dxf entity) "center" = None)
  \/ (dxftype entity = "ARC"
      /\ (read_point (dxf entity) "center" = None
          \/ read_scalar (dxf entity) "start_angle" = None
          \/ read_scalar (dxf entity) "end_angle" = None))
  \/ (dxftype entity = "ELLIPSE"
      /\ (read_scalar (dxf entity) "start_param" = None
          \/ read_scalar (dxf entity) "end_param" = None)).

End transform.

End upright.

(** * A reference instance of the interfaces

    The vector primitives as [ezdxf.math] computes them on binary64 floats,
    DXF defaults of the attributes the transform reads, and the vertex names
    of a quad.  The examples run the transform on this instance.  The
    defaults are floats and points; the default of start_param, the integer
    0 whose negation is 0 and not the float -0.0, is left out. *)

Module reference.
Import upright.

Local Open Scope float_scope.

Definition magnitude (v : Vec3) : float :=
  sqrt (vx v * vx v + vy v * vy v + vz v * vz v).

Definition scale (v : Vec3) (k : float) : Vec3 :=
  mkVec3 (vx v * k) (vy v * k) (vz v * k).

(** [v * (1 / v.magnitude)]: the division raises on a length of zero. *)
Definition unit (v : Vec3) : Vec3 := scale v (1 / magnitude v).

Definition vec_normalize (v : Vec3) : result Vec3 :=
  if magnitude v =? 0 then Raise ZeroDivisionError else Ok (unit v).

(** [math.isclose(a, b, rel_tol=1e-9, abs_tol=1e-12)], the two tolerances as
    the binary64 values of their literals: equal values are close, an
    infinite value is close to nothing else, and otherwise the difference is
    within the relative tolerance of one of the two or within the absolute
    one. *)
Definition float_isclose (a b : float) : bool :=
  (a =? b)
  || (negb (is_infinity a || is_infinity b)
      && ((abs (b - a) <=? abs (0x1.12e0be826d695p-30 * b))
          || (abs (b - a) <=? abs (0x1.12e0be826d695p-30 * a))
          || (abs (b - a) <=? 0x1.19799812dea11p-40))).

Definition vec_isclose (a b : Vec3) : bool :=
  float_isclose (vx a) (vx b) && float_isclose (vy a) (vy b)
  && float_isclose (vz a) (vz b).

Definition cross (a b : Vec3) : Vec3 :=
  mkVec3 (vy a * vz b - vz a * vy b)
         (vz a * vx b - vx a * vz b)
         (vx a * vy b - vy a * vx b).

Definition Y_AXIS : Vec3 := mkVec3 0 1 0.

(** [OCS(extrusion).to_wcs(point)]: the arbitrary-axis algorithm, for an
    axis that is not null (the transform builds the OCS of [FLIPPED_Z_AXIS]
    only). *)
Definition ocs_to_wcs (extrusion point : Vec3) : Vec3 :=
  let Az := unit extrusion in
  if vec_isclose Az Z_AXIS then point
  else
    let Ax := if (abs (vx Az) <? 0.015625) && (abs (vy Az) <? 0.015625)
              then cross Y_AXIS Az else cross Z_AXIS Az in
    let Ax := unit Ax in
    let Ay := unit (cross Az Ax) in
    mkVec3 (vx point * vx Ax + vy point * vx Ay + vz point * vx Az)
           (vx point * vy Ax + vy point * vy Ay + vz point * vy Az)
           (vx point * vz Ax + vy point * vz Ay + vz point * vz Az).

#[export] Instance vec_ops : VecOps := {
  normalize := vec_normalize;
  isclose := vec_isclose;
  to_wcs := ocs_to_wcs
}.

#[export] Instance attrib_defaults : AttribDefaults := {
  point_default name :=
    if String.eqb name "center" then Some (mkVec3 0 0 0)
    else if String.eqb name "extrusion" then Some Z_AXIS
    else None;
  scalar_default name :=
    if String.eqb name "start_angle" then Some 0
    else if String.eqb name "end_angle" then Some 360
    else if String.eqb name "end_param" then Some (2 * 0x1.921fb54442d18p+1)
    else if String.eqb name "thickness" then Some 0
    else None
}.

#[export] Instance dxf_const : DXFConst := {
  VERTEXNAMES := ["vtx0"; "vtx1"; "vtx2"; "vtx3"]%string
}.

(** An entity from its kind and the attributes it sets. *)
Definition entity (kind : string) (pts : list (string * Vec3))
  (nums : list (string * float)) : Entity :=
  mkEntity true true kind
    (mkDXFNamespace (list_to_map pts) (list_to_map nums) ∅).

(** The arc of the arc scenario: extrusion [(0,0,-1)], angles 30 and 120,
    center [(1,1,0)]. *)
Definition arc_example : Entity :=
  entity "ARC"
    [("extrusion", mkVec3 0 0 (-1)); ("center", mkVec3 1 1 0)]%string
    [("start_angle", 30); ("end_angle", 120)]%string.

(** The arc of the non-flip scenario: the same arc with the canonical
    extrusion [(0,0,1)]. *)
Definition arc_canonical : Entity :=
  entity "ARC"
    [("extrusion", mkVec3 0 0 1); ("center", mkVec3 1 1 0)]%string
    [("start_angle", 30); ("end_angle", 120)]%string.

(** A flipped circle with a thickness, and a flipped ellipse with the
    parameters of the ellipse scenario. *)
Definition circle_example : Entity :=
  entity "CIRCLE"
    [("extrusion", mkVec3 0 0 (-1)); ("center", mkVec3 1 2 0)]%string
    [("radius", 5); ("thickness", 2)]%string.

Definition ellipse_example : Entity :=
  entity "ELLIPSE"
    [("extrusion", mkVec3 0 0 (-1)); ("center", mkVec3 1 1 0);
     ("major_axis", mkVec3 3 0 0)]%string
    [("ratio", 0.5); ("start_param", 0.5); ("end_param", 2)]%string.

(** A flipped boundary-fill entity, and a flipped text. *)
Definition hatch_example : Entity :=
  entity "HATCH" [("extrusion", mkVec3 0 0 (-1))]%string [].

Definition text_example : Entity :=
  entity "TEXT"
    [("extrusion", mkVec3 0 0 (-1)); ("insert", mkVec3 1 1 0)]%string
    [("height", 2.5)]%string.

(** A text and a circle whose extrusion is the null vector. *)
Definition text_null_extrusion : Entity :=
  entity "TEXT"
    [("extrusion", mkVec3 0 0 0); ("insert", mkVec3 1 1 0)]%string
    [("height", 2.5)]%string.

Definition circle_null_extrusion : Entity :=
  entity "CIRCLE"
    [("extrusion", mkVec3 0 0 0); ("center", mkVec3 1 2 0)]%string
    [("radius", 5)]%string.

(** Attribute definitions without defaults, and a flipped circle that has no
    center. *)
Definition no_defaults : AttribDefaults := {|
  point_default := fun _ => None;
  scalar_default := fun _ => None
|}.

Definition circle_without_center : Entity :=
  entity "CIRCLE" [("extrusion", mkVec3 0 0 (-1))]%string [("radius", 5)]%string.

(** A flipped quad with three of the four vertices set. *)
Definition solid_example : Entity :=
  entity "SOLID"
    [("extrusion", mkVec3 0 0 (-1)); ("vtx0", mkVec3 0 0 0);
     ("vtx1", mkVec3 1 0 0); ("vtx2", mkVec3 0 1 0)]%string
    [("thickness", 1)]%string.

End reference.

(** ** The type table *)

Section type_table.
Import types.

Lemma insert_codes_lookup (d : caster) (codes : list Z) (t : gmap Z caster) (c : Z) :
  foldl (fun t code => <[code := d]> t) t codes !! c
  = if bool_decide (c ∈ codes) then Some d else t !! c.
Proof.
  revert t. induction codes as [|k codes IH]; intros t; cbn [foldl].
  - rewrite bool_decide_eq_false_2; [done | apply not_elem_of_nil].
  - rewrite IH. destruct (decide (c ∈ codes)) as [Hin | Hnin].
    + rewrite !bool_decide_eq_true_2; [done | by right | done].
    + rewrite (bool_decide_eq_false_2 _ Hnin).
      destruct (decide (k = c)) as [-> | Hne].
      * rewrite lookup_insert_eq, bool_decide_eq_true_2; [done | by left].
      * rewrite lookup_insert_ne by done.
        rewrite bool_decide_eq_false_2; [done |].
        rewrite elem_of_cons. intros [? | ?]; congruence.
Qed.

Lemma build_from_lookup (types : list (caster * list Z)) (t : gmap Z caster) (c : Z) :
  foldl (fun table rule =>
           foldl (fun t code => <[code := fst rule]> t) table (snd rule))
        t types !! c
  = match last_rule types c with
    | Some d => Some d
    | None => t !! c
    end.
Proof.
  revert t. induction types as [|rule rest IH]; intros t; cbn [foldl last_rule]; [done |].
  rewrite IH. destruct (last_rule rest c); [done |].
  rewrite insert_codes_lookup. by destruct (bool_decide (c ∈ rule.2)).
Qed.

Lemma build_lookup (types : list (caster * list Z)) (c : Z) :
  _build_type_table types !! c = last_rule types c.
Proof.
  unfold _build_type_table. rewrite build_from_lookup.
  by destruct (last_rule types c).
Qed.

Lemma last_rule_none (types : list (caster * list Z)) (c : Z) :
  Forall (fun rule => c ∉ rule.2) types -> last_rule types c = None.
Proof.
  induction 1 as [|rule rest Hc _ IH]; cbn [last_rule]; [done |].
  rewrite IH. by rewrite bool_decide_eq_false_2.
Qed.

Lemma last_rule_app (pre post : list (caster * list Z)) (c : Z) :
  last_rule (pre ++ post) c
  = match last_rule post c with
    | Some d => Some d
    | None => last_rule pre c
    end.
Proof.
  induction pre as [|rule pre IH]; cbn [app last_rule].
  - by destruct (last_rule post c).
  - rewrite IH. by destruct (last_rule post c).
Qed.

Lemma last_rule_last (pre post : list (caster * list Z)) d codes (c : Z) :
  c ∈ codes -> Forall (fun rule => c ∉ rule.2) post ->
  last_rule (pre ++ (d, codes) :: post) c = Some d.
Proof.
  intros Hin Hpost. rewrite last_rule_app. cbn [last_rule].
  rewrite (last_rule_none _ _ Hpost). cbn [fst snd].
  by rewrite bool_decide_eq_true_2.
Qed.

Lemma rules_agree_sound rules rule c :
  rules_agree rules = true -> rule ∈ rules -> c ∈ rule.2 ->
  table_get (_build_type_table rules) c = rule.1.
Proof.
  unfold rules_agree. rewrite forallb_forall. intros H Hr Hc.
  apply list_elem_of_In in Hr. specialize (H _ Hr).
  rewrite forallb_forall in H. apply list_elem_of_In in Hc.
  specialize (H _ Hc). by apply bool_decide_eq_true in H.
Qed.

Lemma TYPE_RULES_agree : rules_agree TYPE_RULES = true.
Proof. vm_compute. reflexivity. Qed.

End type_table.

(** C1. Type-table dispatch.  The table built from any rule list maps a code
    to the caster of the last rule (in registration order) that contains it,
    so a later rule wins on overlap; a code in no rule is classified as the
    text caster [ustr]; and in the canonical [TYPE_TABLE] every code of every
    declared range is classified as the caster of that range. *)
Theorem type_table_dispatch :
  (forall (rules : list (types.caster * list Z)) (c : Z),
      types._build_type_table rules !! c = types.last_rule rules c) /\
  (forall (pre post : list (types.caster * list Z)) d codes (c : Z),
      c ∈ codes -> Forall (fun rule => c ∉ rule.2) post ->
      types.table_get (types._build_type_table (pre ++ (d, codes) :: post)) c = d) /\
  (forall (rules : list (types.caster * list Z)) (c : Z),
      Forall (fun rule => c ∉ rule.2) rules ->
      types.table_get (types._build_type_table rules) c = types.ustr) /\
  (forall rule (c : Z),
      rule ∈ types.TYPE_RULES -> c ∈ rule.2 -> types.tag_type c = rule.1) /\
  (forall c : Z,
      Forall (fun rule => c ∉ rule.2) types.TYPE_RULES ->
      types.tag_type c = types.ustr).
Proof.
  split; [exact build_lookup |].
  split.
  { intros pre post d codes c Hin Hpost. unfold types.table_get.
    by rewrite build_lookup, (last_rule_last pre post d codes c Hin Hpost). }
  split.
  { intros rules c Hno. unfold types.table_get.
    by rewrite build_lookup, (last_rule_none rules c Hno). }
  split.
  { intros rule c Hr Hc. unfold types.tag_type, types.TYPE_TABLE.
    by apply rules_agree_sound; [apply TYPE_RULES_agree | |]. }
  intros c Hno. unfold types.tag_type, types.TYPE_TABLE, types.table_get.
  by rewrite build_lookup, (last_rule_none _ c Hno).
Qed.


(** ** The upright transform *)

Section upright_facts.
Import upright.
Context `{VecOps} `{AttribDefaults} `{DXFConst}.

Lemma namespace_eta (ns : DXFNamespace) :
  mkDXFNamespace (points ns) (scalars ns) (others ns) = ns.
Proof. by destruct ns. Qed.

Lemma with_dxf_same (e : Entity) : with_dxf e (dxf e) = e.
Proof. by destruct e. Qed.

Lemma flip_thickness_run (ns : DXFNamespace) :
  _flip_thickness ns
  = (Ok tt, mkDXFNamespace (points ns) (neg_thickness (scalars ns)) (others ns)).
Proof.
  unfold _flip_thickness, bind, hasattr_scalar, getattr_scalar, lift, ret,
    setattr_scalar, read_scalar, neg_thickness.
  destruct (scalars ns !! "thickness") as [t|] eqn:Ht.
  - rewrite bool_decide_eq_true_2 by eauto. cbn. by rewrite Ht.
  - rewrite bool_decide_eq_false_2 by (intros [? ?]; discriminate).
    by rewrite namespace_eta.
Qed.

Lemma neg_thickness_other (m : gmap string float) (k : string) :
  k <> "thickness" -> neg_thickness m !! k = m !! k.
Proof.
  intros Hk. unfold neg_thickness. destruct (m !! "thickness"); [|done].
  by rewrite lookup_insert_ne.
Qed.

Lemma neg_thickness_lookup (m : gmap string float) :
  neg_thickness m !! "thickness" = (fun t => (- t)%float) <$> m !! "thickness".
Proof.
  unfold neg_thickness. destruct (m !! "thickness") eqn:E; cbn.
  - by rewrite lookup_insert_eq.
  - done.
Qed.

Lemma flip_circle_run (ns : DXFNamespace) (c : Vec3) :
  read_point ns "center" = Some c ->
  _flip_circle ns = (Ok tt, circle_result c ns).
Proof.
  intros Hc. unfold _flip_circle, bind, getattr_point, lift, setattr_point.
  rewrite Hc. cbn [_flip_vertex Vec3_of rbind]. rewrite flip_thickness_run. reflexivity.
Qed.

Lemma flip_circle_raise (ns : DXFNamespace) :
  read_point ns "center" = None ->
  _flip_circle ns = (Raise TypeError, ns).
Proof.
  intros Hc. unfold _flip_circle, bind, getattr_point, lift.
  rewrite Hc. reflexivity.
Qed.

Lemma read_scalar_after_circle (ns : DXFNamespace) (c : Vec3) (k : string) :
  k <> "thickness" ->
  read_scalar (circle_result c ns) k = read_scalar ns k.
Proof.
  intros Hk. unfold read_scalar, circle_result. cbn.
  by rewrite neg_thickness_other.
Qed.

Lemma flip_arc_run (ns : DXFNamespace) (c : Vec3) (s e : float) :
  read_point ns "center" = Some c ->
  read_scalar ns "start_angle" = Some s ->
  read_scalar ns "end_angle" = Some e ->
  _flip_arc ns = (Ok tt, arc_result c s e ns).
Proof.
  intros Hc Hs He. unfold _flip_arc, bind.
  rewrite (flip_circle_run ns c Hc).
  unfold getattr_scalar, lift, setattr_scalar.
  rewrite !read_scalar_after_circle by done.
  rewrite Hs, He. reflexivity.
Qed.

Lemma flip_ellipse_run (ns : DXFNamespace) (s e : float) :
  read_scalar ns "start_param" = Some s ->
  read_scalar ns "end_param" = Some e ->
  _flip_ellipse ns = (Ok tt, ellipse_result s e ns).
Proof.
  intros Hs He.
  unfold _flip_ellipse, bind, getattr_scalar, lift, setattr_scalar, discard_point.
  rewrite He. cbn. rewrite Hs. reflexivity.
Qed.

(** Without an extrusion attribute [upright] returns at once. *)
Lemma upright_no_extrusion (e : Entity) :
  points (dxf e) !! "extrusion" = None -> upright e = (Ok tt, e).
Proof.
  intros Hx. unfold upright. rewrite Hx.
  rewrite (bool_decide_eq_false_2 (is_Some None)) by (intros [? ?]; discriminate).
  by rewrite !andb_false_r.
Qed.

(** Once the guard passes, [upright] goes on to the dispatch on the kind. *)
Lemma upright_dispatch (e : Entity) :
  flips e ->
  upright e
  = match SIMPLE_UPRIGHT_TOOLS !! dxftype e with
    | Some simple_tool => on_dxf simple_tool e
    | None =>
        match COMPLEX_UPRIGHT_TOOLS !! dxftype e with
        | Some (Some complex_tool) => complex_tool e
        | Some None | None => (Ok tt, e)
        end
    end.
Proof.
  intros (Hg & Ha & x & n & Hx & Hn & Hclose). unfold upright.
  rewrite Hg, Ha, bool_decide_eq_true_2 by eauto. cbn [andb negb].
  unfold read_point. rewrite Hx. cbn [Vec3_of]. rewrite Hn, Hclose. reflexivity.
Qed.

(** When the guard passes and [normalize] raises, [upright] raises the same
    exception, before it has looked at the kind of the entity. *)
Lemma upright_normalize_raises (e : Entity) (x : pyexc) :
  normalize_raises e x -> upright e = (Raise x, e).
Proof.
  intros (Hg & Ha & v & Hv & Hn). unfold upright.
  rewrite Hg, Ha, bool_decide_eq_true_2 by eauto. cbn [andb negb].
  unfold read_point. rewrite Hv. cbn [Vec3_of]. by rewrite Hn.
Qed.

Lemma simple_tool_circle : SIMPLE_UPRIGHT_TOOLS !! "CIRCLE" = Some _flip_circle.
Proof. reflexivity. Qed.
Lemma simple_tool_arc : SIMPLE_UPRIGHT_TOOLS !! "ARC" = Some _flip_arc.
Proof. reflexivity. Qed.
Lemma simple_tool_ellipse : SIMPLE_UPRIGHT_TOOLS !! "ELLIPSE" = Some _flip_ellipse.
Proof. reflexivity. Qed.

(** The kinds of the placeholder table. *)
Lemma complex_kind_lookup (k : string) :
  k ∈ ["LWPOLYLINE"; "POLYLINE"; "HATCH"; "MPOLYGON"; "INSERT"] ->
  SIMPLE_UPRIGHT_TOOLS !! k = None
  /\ (COMPLEX_UPRIGHT_TOOLS !! k = Some (Some _flip_complex_entity)
      \/ COMPLEX_UPRIGHT_TOOLS !! k = Some None).
Proof.
  rewrite !elem_of_cons, elem_of_nil.
  intros [-> | [-> | [-> | [-> | [-> | []]]]]]; split; auto.
Qed.

(** Reflecting an angle in degrees: against +180 when it is not negative,
    against -180 when it is negative. *)
Lemma flip_deg_spec (a : float) :
  ((0 <=? a)%float = true -> flip_deg a = (180 - a)%float)
  /\ ((a <? 0)%float = true -> flip_deg a = (-180 - a)%float).
Proof.
  unfold flip_deg. split; intros Hs.
  - by rewrite Hs.
  - assert ((0 <=? a)%float = false) as ->; [|done].
    rewrite ltb_spec in Hs. rewrite leb_spec.
    change (Prim2SF 0) with (S754_zero false) in *.
    destruct (Prim2SF a) as [sg | sg | | sg m ex]; cbn in *;
      try destruct sg; try discriminate; reflexivity.
Qed.

(** C2. An arc that passes the guard: the angles are swapped and reflected
    (new end_angle is the reflection of the old start_angle, new start_angle
    the reflection of the old end_angle, the reflection being [180 - a] for
    [a >= 0] and [-180 - a] for [a < 0]), the center goes through the
    flipped-OCS-to-WCS conversion, thickness is negated where it is set and
    the extrusion attribute is removed; start_angle 30 and end_angle 120
    become start_angle 60 and end_angle 150. *)
Theorem upright_arc (e : Entity) (c : Vec3) (s en : float) :
  dxftype e = "ARC" ->
  flips e ->
  read_point (dxf e) "center" = Some c ->
  read_scalar (dxf e) "start_angle" = Some s ->
  read_scalar (dxf e) "end_angle" = Some en ->
  upright e = (Ok tt, with_dxf e (arc_result c s en (dxf e)))
  /\ scalars (arc_result c s en (dxf e)) !! "end_angle" = Some (flip_deg s)
  /\ scalars (arc_result c s en (dxf e)) !! "start_angle" = Some (flip_deg en)
  /\ (forall a : float,
        ((0 <=? a)%float = true -> flip_deg a = (180 - a)%float)
        /\ ((a <? 0)%float = true -> flip_deg a = (-180 - a)%float))
  /\ points (arc_result c s en (dxf e)) !! "center" = Some (to_wcs FLIPPED_Z_AXIS c)
  /\ scalars (arc_result c s en (dxf e)) !! "thickness"
     = (fun t => (- t)%float) <$> scalars (dxf e) !! "thickness"
  /\ points (arc_result c s en (dxf e)) !! "extrusion" = None
  /\ (s = 30%float -> en = 120%float ->
      scalars (arc_result c s en (dxf e)) !! "start_angle" = Some 60%float
      /\ scalars (arc_result c s en (dxf e)) !! "end_angle" = Some 150%float).
Proof.
  intros Hk Hf Hc Hs He.
  assert (scalars (arc_result c s en (dxf e)) !! "end_angle" = Some (flip_deg s)) as Hend.
  { unfold arc_result; cbn [scalars].
    rewrite lookup_insert_ne by done. by rewrite lookup_insert_eq. }
  assert (scalars (arc_result c s en (dxf e)) !! "start_angle" = Some (flip_deg en)) as Hstart.
  { unfold arc_result; cbn [scalars]. by rewrite lookup_insert_eq. }
  split.
  { rewrite (upright_dispatch e Hf), Hk, simple_tool_arc. unfold on_dxf.
    by rewrite (flip_arc_run _ c s en Hc Hs He). }
  split; [exact Hend |]. split; [exact Hstart |].
  split; [exact flip_deg_spec |].
  split.
  { unfold arc_result; cbn [points].
    rewrite lookup_delete_ne by done. by rewrite lookup_insert_eq. }
  split.
  { unfold arc_result; cbn [scalars].
    rewrite !lookup_insert_ne by done. apply neg_thickness_lookup. }
  split.
  { unfold arc_result; cbn [points]. by rewrite lookup_delete_eq. }
  intros -> ->. rewrite Hstart, Hend. split; reflexivity.
Qed.

(** The guard: an entity that is not alive, or not graphical, or has no
    extrusion attribute, or whose extrusion normalizes to a vector that is
    not close to the flipped axis, or whose kind has no tool in either table
    and whose extrusion, if set, can be normalized, is returned as it was,
    and no exception is raised. *)
Lemma upright_ignores (e : Entity) :
  is_alive e = false
  \/ is_graphic e = false
  \/ points (dxf e) !! "extrusion" = None
  \/ (exists x n, points (dxf e) !! "extrusion" = Some x
                  /\ normalize x = Ok n
                  /\ isclose n FLIPPED_Z_AXIS = false)
  \/ (SIMPLE_UPRIGHT_TOOLS !! dxftype e = None
      /\ COMPLEX_UPRIGHT_TOOLS !! dxftype e = None
      /\ forall v, points (dxf e) !! "extrusion" = Some v ->
                   exists n, normalize v = Ok n) ->
  upright e = (Ok tt, e).
Proof.
  intros Hcase. unfold upright.
  destruct (is_graphic e) eqn:Hg; cbn [andb negb]; [|done].
  destruct (is_alive e) eqn:Ha; cbn [andb negb]; [|done].
  destruct (points (dxf e) !! "extrusion") as [x|] eqn:Hx.
  2:{ by rewrite bool_decide_eq_false_2 by (intros [? ?]; discriminate). }
  rewrite bool_decide_eq_true_2 by eauto. cbn [negb].
  unfold read_point. rewrite Hx. cbn [Vec3_of].
  assert (exists n, normalize x = Ok n) as [n Hn].
  { destruct Hcase as [? | [? | [? | [(y & n & Hy & Hn & _) | (_ & _ & Hv)]]]];
      try discriminate; [| by apply Hv].
    exists n. congruence. }
  rewrite Hn.
  destruct (isclose n FLIPPED_Z_AXIS) eqn:Hclose; cbn [negb]; [|done].
  destruct Hcase as [? | [? | [? | [(y & m & Hy & Hm & Hfar) | (Hs & Hc & _)]]]];
    try discriminate.
  - congruence.
  - by rewrite Hs, Hc.
Qed.

(** C6. Upright is idempotent on a circle that passes the guard: the entity
    after two calls is the entity after one.  When the first call returns,
    it has removed the extrusion attribute and the second call is stopped by
    the guard. *)
Theorem upright_circle_idempotent (e : Entity) :
  dxftype e = "CIRCLE" ->
  flips e ->
  snd (upright (snd (upright e))) = snd (upright e)
  /\ (forall c, read_point (dxf e) "center" = Some c ->
        upright e = (Ok tt, with_dxf e (circle_result c (dxf e)))
        /\ points (circle_result c (dxf e)) !! "extrusion" = None
        /\ upright (with_dxf e (circle_result c (dxf e)))
           = (Ok tt, with_dxf e (circle_result c (dxf e)))).
Proof.
  intros Hk Hf.
  assert (forall c, points (circle_result c (dxf e)) !! "extrusion" = None) as Hgone.
  { intros c. unfold circle_result; cbn [points]. by rewrite lookup_delete_eq. }
  assert (forall c, upright (with_dxf e (circle_result c (dxf e)))
                    = (Ok tt, with_dxf e (circle_result c (dxf e)))) as Hstop.
  { intros c. apply upright_no_extrusion. apply Hgone. }
  assert (upright e = on_dxf _flip_circle e) as Hrun.
  { by rewrite (upright_dispatch e Hf), Hk, simple_tool_circle. }
  split.
  - rewrite Hrun. unfold on_dxf.
    destruct (read_point (dxf e) "center") as [c|] eqn:Hc.
    + rewrite (flip_circle_run _ c Hc). cbn [snd]. by rewrite Hstop.
    + rewrite (flip_circle_raise _ Hc). cbn [snd].
      rewrite with_dxf_same, Hrun. unfold on_dxf.
      rewrite (flip_circle_raise _ Hc). cbn [snd]. apply with_dxf_same.
  - intros c Hc. split; [|split; [apply Hgone | apply Hstop]].
    rewrite Hrun. unfold on_dxf. by rewrite (flip_circle_run _ c Hc).
Qed.

(** C7. An ellipse that passes the guard: new end_param is minus the old
    start_param, new start_param is minus the old end_param, the extrusion
    attribute is removed, and nothing else changes (the center and the
    thickness stay); start_param 0.5 and end_param 2.0 become start_param
    -2.0 and end_param -0.5. *)
Theorem upright_ellipse (e : Entity) (s en : float) :
  dxftype e = "ELLIPSE" ->
  flips e ->
  read_scalar (dxf e) "start_param" = Some s ->
  read_scalar (dxf e) "end_param" = Some en ->
  upright e = (Ok tt, with_dxf e (ellipse_result s en (dxf e)))
  /\ scalars (ellipse_result s en (dxf e)) !! "end_param" = Some (- s)%float
  /\ scalars (ellipse_result s en (dxf e)) !! "start_param" = Some (- en)%float
  /\ points (ellipse_result s en (dxf e)) !! "extrusion" = None
  /\ (forall k : string, k <> "extrusion" ->
        points (ellipse_result s en (dxf e)) !! k = points (dxf e) !! k)
  /\ (forall k : string, k <> "start_param" -> k <> "end_param" ->
        scalars (ellipse_result s en (dxf e)) !! k = scalars (dxf e) !! k)
  /\ others (ellipse_result s en (dxf e)) = others (dxf e)
  /\ (s = 0.5%float -> en = 2%float ->
      scalars (ellipse_result s en (dxf e)) !! "start_param" = Some (-2)%float
      /\ scalars (ellipse_result s en (dxf e)) !! "end_param" = Some (-0.5)%float).
Proof.
  intros Hk Hf Hs He.
  assert (scalars (ellipse_result s en (dxf e)) !! "end_param" = Some (- s)%float) as Hend.
  { unfold ellipse_result; cbn [scalars].
    rewrite lookup_insert_ne by done. by rewrite lookup_insert_eq. }
  assert (scalars (ellipse_result s en (dxf e)) !! "start_param" = Some (- en)%float) as Hstart.
  { unfold ellipse_result; cbn [scalars]. by rewrite lookup_insert_eq. }
  split.
  { rewrite (upright_dispatch e Hf), Hk, simple_tool_ellipse. unfold on_dxf.
    by rewrite (flip_ellipse_run _ s en Hs He). }
  split; [exact Hend |]. split; [exact Hstart |].
  split.
  { unfold ellipse_result; cbn [points]. by rewrite lookup_delete_eq. }
  split.
  { intros k Hne. unfold ellipse_result; cbn [points]. by rewrite lookup_delete_ne. }
  split.
  { intros k Hn1 Hn2. unfold ellipse_result; cbn [scalars].
    by rewrite !lookup_insert_ne. }
  split; [reflexivity |].
  intros -> ->. rewrite Hstart, Hend. split; reflexivity.
Qed.

(** C10. The placeholder kinds: for LWPOLYLINE, POLYLINE, HATCH, MPOLYGON and
    INSERT an entity that passes the guard is returned as it was; the
    extrusion attribute is still set, so the entity passes the guard again
    and a second call does the same. *)
Theorem upright_complex_kinds (e : Entity) :
  dxftype e ∈ ["LWPOLYLINE"; "POLYLINE"; "HATCH"; "MPOLYGON"; "INSERT"] ->
  flips e ->
  upright e = (Ok tt, e)
  /\ is_Some (points (dxf (snd (upright e))) !! "extrusion")
  /\ flips (snd (upright e))
  /\ upright (snd (upright e)) = (Ok tt, e).
Proof.
  intros Hk Hf.
  assert (upright e = (Ok tt, e)) as Hrun.
  { rewrite (upright_dispatch e Hf).
    destruct (complex_kind_lookup _ Hk) as [-> [-> | ->]]; reflexivity. }
  rewrite Hrun. cbn [snd].
  split; [reflexivity |]. split; [| split; [exact Hf | exact Hrun]].
  destruct Hf as (_ & _ & x & n & Hx & _). eauto.
Qed.

End upright_facts.

(** ** Tags and their text records *)

Section tag_facts.
Import types.
Context `{PyFloatOps}.

Lemma count_nl_app (a b : string) :
  count_nl (a ++ b) = (count_nl a + count_nl b)%nat.
Proof.
  induction a as [|ch a IH]; simpl; [done |].
  rewrite IH. lia.
Qed.

Lemma count_nl_spaces (n : nat) : count_nl (spaces n) = 0%nat.
Proof. unfold spaces. induction n as [|n IH]; cbn; [done | exact IH]. Qed.

Lemma length_spaces (n : nat) : String.length (spaces n) = n.
Proof. unfold spaces. induction n as [|n IH]; simpl; [done | by rewrite IH]. Qed.

Lemma string_length_app (a b : string) :
  String.length (a ++ b) = (String.length a + String.length b)%nat.
Proof. induction a as [|ch a IH]; simpl; [done | by rewrite IH]. Qed.

Lemma string_app_assoc (a b c : string) : ((a ++ b) ++ c = a ++ (b ++ c))%string.
Proof.
  induction a as [|ch a IH]; [reflexivity |].
  change (String ch ((a ++ b) ++ c) = String ch (a ++ (b ++ c)))%string.
  by rewrite IH.
Qed.

Lemma count_nl_uint (d : Decimal.uint) :
  count_nl (NilEmpty.string_of_uint d) = 0%nat.
Proof. induction d; cbn; auto. Qed.

Lemma count_nl_str_int (n : Z) : count_nl (str_int n) = 0%nat.
Proof.
  unfold str_int, NilZero.string_of_int, NilZero.string_of_uint.
  destruct (Z.to_int n) as [d | d]; destruct d; cbn; auto using count_nl_uint.
Qed.

Lemma length_rjust (w : nat) (s : string) :
  String.length (rjust w s) = Nat.max w (String.length s).
Proof. unfold rjust. rewrite string_length_app, length_spaces. lia. Qed.

Lemma count_nl_rjust (w : nat) (s : string) : count_nl (rjust w s) = count_nl s.
Proof. unfold rjust. by rewrite count_nl_app, count_nl_spaces. Qed.

(** One text record: the code in a field of width 3, a newline, the text of
    the value, a newline. *)
Lemma format_tag_ok (code : Z) (value : tagvalue) :
  format_tag (Some code) value
  = Ok (rjust 3 (str_int code) ++ nl ++ str_value value ++ nl)%string.
Proof.
  unfold format_tag, py_format.
  generalize (str_value value) as text. intros text.
  let f := eval vm_compute in TAG_STRING_FORMAT in change TAG_STRING_FORMAT with f.
  cbn -[str_int rjust is_digit digit_val].
  repeat match goal with
         | |- context [is_digit ?ch] =>
             let b := eval vm_compute in (is_digit ch) in
             change (is_digit ch) with b
         end.
  change (Z.to_nat (digit_val "3")) with 3%nat.
  cbn -[str_int rjust]. reflexivity.
Qed.

Lemma join_records_ok (tags : list (Z * float)) :
  join_records tags
  = Ok (fold_right
          (fun tag out =>
             (rjust 3 (str_int (fst tag)) ++ nl ++ str_of_float (snd tag) ++ nl ++ out)%string)
          EmptyString tags).
Proof.
  induction tags as [|tag rest IH]; cbn [join_records fold_right]; [done |].
  rewrite format_tag_ok, IH. cbn [rbind str_value].
  f_equal. by rewrite !string_app_assoc.
Qed.

(** C9, as the code has it.  The text record of a scalar tag is the format
    [%3d\n%s\n] filled with the code and the value: the code field, a
    newline, the text of the value, a newline.  The code field is the decimal
    numeral of the code with spaces on its left up to width 3: at least 3
    characters wide, the whole numeral kept when it is wider, and no newline
    inside.  The record has the two newlines of the format besides those of
    the value's own text, so it is exactly two lines when the text of the
    value has no newline. *)
Theorem tag_record_format (code : Z) (value : tagvalue) :
  DXFTag_dxfstr (mkDXFTag (Some code) value)
  = Ok (rjust 3 (str_int code) ++ nl ++ str_value value ++ nl)%string
  /\ rjust 3 (str_int code)
     = (spaces (3 - String.length (str_int code)) ++ str_int code)%string
  /\ String.length (rjust 3 (str_int code)) = Nat.max 3 (String.length (str_int code))
  /\ ((3 <= String.length (str_int code))%nat -> rjust 3 (str_int code) = str_int code)
  /\ count_nl (rjust 3 (str_int code)) = 0%nat
  /\ (forall out, DXFTag_dxfstr (mkDXFTag (Some code) value) = Ok out ->
        count_nl out = (2 + count_nl (str_value value))%nat)
  /\ (count_nl (str_value value) = 0%nat ->
      forall out, DXFTag_dxfstr (mkDXFTag (Some code) value) = Ok out ->
        count_nl out = 2%nat).
Proof.
  unfold DXFTag_dxfstr. cbn [tag_code tag_value]. rewrite format_tag_ok.
  assert (forall out,
             Ok (rjust 3 (str_int code) ++ nl ++ str_value value ++ nl)%string = Ok out ->
             count_nl out = (2 + count_nl (str_value value))%nat) as Hcount.
  { intros out [= <-].
    rewrite !count_nl_app, count_nl_rjust, count_nl_str_int. cbn. lia. }
  split; [reflexivity |]. split; [reflexivity |].
  split; [apply length_rjust |].
  split.
  { intros Hw. unfold rjust.
    by replace (3 - String.length (str_int code))%nat with 0%nat by lia. }
  split; [by rewrite count_nl_rjust, count_nl_str_int |].
  split; [exact Hcount |].
  intros Hone out Hout. rewrite (Hcount out Hout). lia.
Qed.

(** C5. A vertex tag of two or three components at base code [c] serializes
    to that many scalar records, at codes [c], [c + 10], [c + 20] in this
    order, each the record of the scalar tag with that code and component;
    the vertex [(10, (1.0, 2.0, 3.0))] gives the records of codes 10, 20, 30
    with the values 1.0, 2.0, 3.0. *)
Theorem vertex_dxfstr (c : Z) (x y z : float) :
  (forall r1 r2,
      DXFTag_dxfstr (mkDXFTag (Some c) (VFloat x)) = Ok r1 ->
      DXFTag_dxfstr (mkDXFTag (Some (c + 10)) (VFloat y)) = Ok r2 ->
      DXFVertex_dxfstr (mkDXFVertex c [x; y]) = Ok (r1 ++ r2)%string)
  /\ (forall r1 r2 r3,
      DXFTag_dxfstr (mkDXFTag (Some c) (VFloat x)) = Ok r1 ->
      DXFTag_dxfstr (mkDXFTag (Some (c + 10)) (VFloat y)) = Ok r2 ->
      DXFTag_dxfstr (mkDXFTag (Some (c + 20)) (VFloat z)) = Ok r3 ->
      DXFVertex_dxfstr (mkDXFVertex c [x; y; z]) = Ok (r1 ++ r2 ++ r3)%string)
  /\ dxftags (mkDXFVertex c [x; y]) = [(c, x); (c + 10, y)]
  /\ dxftags (mkDXFVertex c [x; y; z]) = [(c, x); (c + 10, y); (c + 20, z)]
  /\ DXFVertex_dxfstr (mkDXFVertex c [x; y])
     = Ok (rjust 3 (str_int c) ++ nl ++ str_of_float x ++ nl
           ++ rjust 3 (str_int (c + 10)) ++ nl ++ str_of_float y ++ nl)%string
  /\ DXFVertex_dxfstr (mkDXFVertex c [x; y; z])
     = Ok (rjust 3 (str_int c) ++ nl ++ str_of_float x ++ nl
           ++ rjust 3 (str_int (c + 10)) ++ nl ++ str_of_float y ++ nl
           ++ rjust 3 (str_int (c + 20)) ++ nl ++ str_of_float z ++ nl)%string
  /\ DXFVertex_dxfstr (mkDXFVertex 10 [1; 2; 3]%float)
     = Ok (" 10" ++ nl ++ str_of_float 1 ++ nl
           ++ " 20" ++ nl ++ str_of_float 2 ++ nl
           ++ " 30" ++ nl ++ str_of_float 3 ++ nl)%string.
Proof.
  unfold DXFTag_dxfstr, DXFVertex_dxfstr. cbn [tag_code tag_value].
  rewrite !format_tag_ok.
  split.
  { intros r1 r2 [= <-] [= <-]. rewrite join_records_ok. cbn.
    f_equal. by rewrite !string_app_assoc. }
  split.
  { intros r1 r2 r3 [= <-] [= <-] [= <-]. rewrite join_records_ok. cbn.
    f_equal. by rewrite !string_app_assoc. }
  split; [reflexivity |]. split; [reflexivity |].
  rewrite !join_records_ok.
  split; [reflexivity |]. split; reflexivity.
Qed.

(** C3, as the code has it.  [cast_tag_value] calls the caster that the table
    gives for the code and the text caster when the table has none: the
    lookup never raises.  With the text caster the call returns the text of
    the value, a text unchanged; with another caster the call raises when the
    caster cannot convert the value. *)
Theorem cast_tag_value_dispatch (code : Z) (value : raw) :
  cast_tag_value code value = call (tag_type code) value
  /\ (forall rules : gmap Z caster,
        cast_tag_value_with code value rules
        = call (default ustr (rules !! code)) value)
  /\ (forall rules : gmap Z caster,
        rules !! code = None ->
        cast_tag_value_with code value rules = Ok (VStr (py_str value)))
  /\ (Forall (fun rule => code ∉ rule.2) TYPE_RULES ->
      cast_tag_value code value = Ok (VStr (py_str value)))
  /\ (forall s : string,
        Forall (fun rule => code ∉ rule.2) TYPE_RULES ->
        cast_tag_value code (RStr s) = Ok (VStr s))
  /\ (tag_type code = int_ -> py_int value = Raise ValueError ->
      cast_tag_value code value = Raise ValueError).
Proof.
  assert (Forall (fun rule => code ∉ rule.2) TYPE_RULES -> tag_type code = ustr) as Hno.
  { intros Hn. unfold tag_type, TYPE_TABLE, table_get.
    by rewrite build_lookup, (last_rule_none _ code Hn). }
  unfold cast_tag_value, cast_tag_value_with. fold (tag_type code).
  split; [reflexivity |]. split; [reflexivity |].
  split. { intros rules Hr. unfold table_get. by rewrite Hr. }
  split. { intros Hn. by rewrite (Hno Hn). }
  split. { intros s Hn. by rewrite (Hno Hn). }
  intros -> Hv. cbn [call]. by rewrite Hv.
Qed.

End tag_facts.

(** C8. [is_point_code] holds exactly for the base codes 10..19, 110, 111,
    112, 210 and 1010..1019; it fails for the companion code 20;
    [is_pointer_code] holds for 390 and fails for 10. *)
Theorem point_code_predicates :
  (forall c : Z,
      types.is_point_code c = true <->
      10 <= c <= 19 \/ 110 <= c <= 112 \/ c = 210 \/ 1010 <= c <= 1019)
  /\ types.is_point_code 10 = true
  /\ types.is_point_code 20 = false
  /\ types.is_pointer_code 390 = true
  /\ types.is_pointer_code 10 = false.
Proof.
  split.
  { intros c. unfold types.is_point_code, types.POINT_CODES.
    rewrite bool_decide_eq_true, elem_of_list_to_set.
    rewrite !elem_of_cons, elem_of_nil. lia. }
  repeat split; vm_compute; reflexivity.
Qed.

(** ** The claims on concrete inputs *)

Section examples.
Import reference.

Lemma type_table_dispatch_witness :
  types.tag_type 15 = types.point_tuple
  /\ types.tag_type 1071 = types.int_
  /\ types.tag_type 5 = types.ustr
  /\ types.table_get
       (types._build_type_table
          ([(types.int_, [1; 2])] ++ (types.float_, [2; 3]) :: [(types.int_, [7])])) 2
     = types.float_.
Proof.
  destruct type_table_dispatch as (_ & Hlast & _ & Hin & Hout).
  split; [| split; [| split]].
  - apply (Hin (types.point_tuple, types.range 10 20) 15);
      apply (bool_decide_unpack _); vm_compute; exact I.
  - apply (Hin (types.int_, types.range 1060 1072) 1071);
      apply (bool_decide_unpack _); vm_compute; exact I.
  - apply (Hout 5). apply (bool_decide_unpack _); vm_compute; exact I.
  - apply Hlast; apply (bool_decide_unpack _); vm_compute; exact I.
Defined.

(** C3 as stated fails: code 70 is an integer code, [int("abc")] is a
    [ValueError], and so [cast_tag_value(70, "abc")] raises, whatever the
    float conversions are. *)
Lemma cast_tag_value_raises :
  types.tag_type 70 = types.int_
  /\ int_of_str "abc" = None
  /\ (forall ops : PyFloatOps,
        types.cast_tag_value 70 (RStr "abc") = Raise ValueError).
Proof.
  split; [vm_compute; reflexivity |]. split; [vm_compute; reflexivity |].
  intros ops. vm_compute. reflexivity.
Qed.

(** C9 as stated fails: the tag [(1, "a\nb")], whose text holds a newline,
    has a record of three lines; and [NONE_TAG], whose code is [None], has no
    record: [%d] raises on it. *)
Lemma tag_record_three_lines :
  count_nl ("a" ++ nl ++ "b") = 1%nat
  /\ (forall ops : PyFloatOps,
        types.DXFTag_dxfstr (types.mkDXFTag (Some 1) (VStr ("a" ++ nl ++ "b")))
        = Ok ("  1" ++ nl ++ "a" ++ nl ++ "b" ++ nl)%string)
  /\ count_nl ("  1" ++ nl ++ "a" ++ nl ++ "b" ++ nl) = 3%nat
  /\ (forall ops : PyFloatOps, types.DXFTag_dxfstr types.NONE_TAG = Raise TypeError).
Proof.
  split; [vm_compute; reflexivity |].
  split.
  { intros ops. unfold types.DXFTag_dxfstr. cbn [types.tag_code types.tag_value].
    rewrite format_tag_ok. reflexivity. }
  split; [vm_compute; reflexivity |].
  intros ops. vm_compute. reflexivity.
Qed.

Lemma cast_tag_value_dispatch_witness :
  Forall (fun rule : types.caster * list Z => 5 ∉ rule.2) types.TYPE_RULES
  /\ (forall ops : PyFloatOps,
        types.cast_tag_value 5 (RStr "1F") = Ok (VStr "1F")).
Proof.
  assert (Forall (fun rule : types.caster * list Z => 5 ∉ rule.2) types.TYPE_RULES)
    as Hno by (apply (bool_decide_unpack _); vm_compute; exact I).
  split; [exact Hno |]. intros ops.
  destruct (cast_tag_value_dispatch 5 (RStr "1F")) as (_ & _ & _ & _ & Htext & _).
  exact (Htext "1F" Hno).
Defined.

Lemma tag_record_format_witness :
  (3 <= String.length (str_int 1071))%nat
  /\ (forall ops : PyFloatOps,
        rjust 3 (str_int 1071) = "1071"
        /\ types.DXFTag_dxfstr (types.mkDXFTag (Some 0) (VStr "LINE"))
           = Ok ("  0" ++ nl ++ "LINE" ++ nl)%string
        /\ count_nl ("  0" ++ nl ++ "LINE" ++ nl) = 2%nat).
Proof.
  split; [vm_compute; lia |]. intros ops.
  destruct (tag_record_format 1071 (VStr "LINE")) as (_ & _ & _ & Hwide & _).
  destruct (tag_record_format 0 (VStr "LINE")) as (Hrec & _ & _ & _ & _ & _ & Hlines).
  split; [apply Hwide; vm_compute; lia |].
  split; [exact Hrec |].
  apply Hlines; [reflexivity | exact Hrec].
Defined.

Lemma vertex_dxfstr_witness :
  types.dxftags (types.mkDXFVertex 10 [1; 2; 3]%float)
  = [(10, 1%float); (20, 2%float); (30, 3%float)]
  /\ (forall ops : PyFloatOps,
        types.DXFVertex_dxfstr (types.mkDXFVertex 10 [1; 2; 3]%float)
        = Ok ((" 10" ++ nl ++ str_of_float 1 ++ nl)
              ++ (" 20" ++ nl ++ str_of_float 2 ++ nl)
              ++ (" 30" ++ nl ++ str_of_float 3 ++ nl))%string).
Proof.
  split; [reflexivity |]. intros ops.
  destruct (vertex_dxfstr 10 1 2 3) as (_ & Hthree & _).
  apply Hthree; unfold types.DXFTag_dxfstr; cbn [types.tag_code types.tag_value];
    rewrite format_tag_ok; reflexivity.
Defined.

Lemma flips_arc_example : upright.flips reference.arc_example.
Proof.
  split; [reflexivity |]. split; [reflexivity |].
  exists (upright.mkVec3 0 0 (-1)). eexists.
  split; [vm_compute; reflexivity |]. split; vm_compute; reflexivity.
Defined.

Lemma upright_arc_witness :
  upright.upright reference.arc_example
  = (Ok tt,
     upright.with_dxf reference.arc_example
       (upright.arc_result (upright.mkVec3 1 1 0) 30 120
          (upright.dxf reference.arc_example)))
  /\ upright.scalars
       (upright.arc_result (upright.mkVec3 1 1 0) 30 120
          (upright.dxf reference.arc_example)) !! "start_angle" = Some 60%float
  /\ upright.scalars
       (upright.arc_result (upright.mkVec3 1 1 0) 30 120
          (upright.dxf reference.arc_example)) !! "end_angle" = Some 150%float.
Proof.
  destruct (upright_arc reference.arc_example (upright.mkVec3 1 1 0) 30 120)
    as (Hrun & _ & _ & _ & _ & _ & _ & Hex);
    [reflexivity | exact flips_arc_example
     | vm_compute; reflexivity | vm_compute; reflexivity | vm_compute; reflexivity |].
  split; [exact Hrun | apply Hex; reflexivity].
Defined.

(** The non-flip scenario: the arc with extrusion [(0,0,1)] comes back as it
    was. *)
Example arc_canonical_run :
  upright.upright reference.arc_canonical = (Ok tt, reference.arc_canonical).
Proof.
  apply upright_ignores. right; right; right; left.
  exists (upright.mkVec3 0 0 1). eexists.
  split; [vm_compute; reflexivity |]. split; vm_compute; reflexivity.
Qed.

(** C4.  The guard of [upright] is not silent on every entity: it
    normalizes the extrusion before it compares it and before it looks at
    the kind, so an entity that is graphical, alive and has an extrusion
    raises whatever [normalize] raises.  A text, which has no tool in either
    table, and a circle, both with the null vector as extrusion, raise
    [ZeroDivisionError] where the docstring of [upright] has entities with
    other extrusion vectors and unsupported entities silently ignored. *)
Theorem upright_null_extrusion :
  (forall (V : upright.VecOps) (D : upright.AttribDefaults) (K : upright.DXFConst)
          (e : upright.Entity) (v : upright.Vec3) (x : pyexc),
      upright.is_graphic e = true -> upright.is_alive e = true ->
      upright.points (upright.dxf e) !! "extrusion" = Some v ->
      upright.normalize v = Raise x ->
      upright.upright e = (Raise x, e))
  /\ upright.SIMPLE_UPRIGHT_TOOLS !! "TEXT" = None
  /\ upright.COMPLEX_UPRIGHT_TOOLS !! "TEXT" = None
  /\ upright.points (upright.dxf reference.text_null_extrusion) !! "extrusion"
     = Some (upright.mkVec3 0 0 0)
  /\ upright.normalize (upright.mkVec3 0 0 0) = Raise ZeroDivisionError
  /\ upright.upright reference.text_null_extrusion
     = (Raise ZeroDivisionError, reference.text_null_extrusion)
  /\ upright.upright reference.circle_null_extrusion
     = (Raise ZeroDivisionError, reference.circle_null_extrusion).
Proof.
  split.
  { intros V D K e v x Hg Ha Hv Hn. apply upright_normalize_raises.
    split; [done |]. split; [done |]. eauto. }
  split; [reflexivity |]. split; [reflexivity |].
  split; [vm_compute; reflexivity |]. split; [vm_compute; reflexivity |].
  split; apply upright_normalize_raises;
    (split; [reflexivity |]; split; [reflexivity |];
     exists (upright.mkVec3 0 0 0); split; vm_compute; reflexivity).
Qed.

Lemma flips_circle_example : upright.flips reference.circle_example.
Proof.
  split; [reflexivity |]. split; [reflexivity |].
  exists (upright.mkVec3 0 0 (-1)). eexists.
  split; [vm_compute; reflexivity |]. split; vm_compute; reflexivity.
Defined.

Lemma upright_circle_idempotent_witness :
  snd (upright.upright (snd (upright.upright reference.circle_example)))
  = snd (upright.upright reference.circle_example).
Proof.
  apply (upright_circle_idempotent reference.circle_example);
    [reflexivity | exact flips_circle_example].
Defined.

Lemma flips_ellipse_example : upright.flips reference.ellipse_example.
Proof.
  split; [reflexivity |]. split; [reflexivity |].
  exists (upright.mkVec3 0 0 (-1)). eexists.
  split; [vm_compute; reflexivity |]. split; vm_compute; reflexivity.
Defined.

Lemma upright_ellipse_witness :
  upright.upright reference.ellipse_example
  = (Ok tt,
     upright.with_dxf reference.ellipse_example
       (upright.ellipse_result 0.5 2 (upright.dxf reference.ellipse_example)))
  /\ upright.scalars
       (upright.ellipse_result 0.5 2 (upright.dxf reference.ellipse_example))
       !! "start_param" = Some (-2)%float
  /\ upright.scalars
       (upright.ellipse_result 0.5 2 (upright.dxf reference.ellipse_example))
       !! "end_param" = Some (-0.5)%float.
Proof.
  destruct (upright_ellipse reference.ellipse_example 0.5 2)
    as (Hrun & _ & _ & _ & _ & _ & _ & Hex);
    [reflexivity | exact flips_ellipse_example
     | vm_compute; reflexivity | vm_compute; reflexivity |].
  split; [exact Hrun | apply Hex; reflexivity].
Defined.

Lemma flips_hatch_example : upright.flips reference.hatch_example.
Proof.
  split; [reflexivity |]. split; [reflexivity |].
  exists (upright.mkVec3 0 0 (-1)). eexists.
  split; [vm_compute; reflexivity |]. split; vm_compute; reflexivity.
Defined.

Lemma upright_complex_kinds_witness :
  upright.upright reference.hatch_example = (Ok tt, reference.hatch_example)
  /\ is_Some (upright.points
                (upright.dxf (snd (upright.upright reference.hatch_example)))
              !! "extrusion").
Proof.
  destruct (upright_complex_kinds reference.hatch_example) as (Hrun & Hext & _);
    [apply (bool_decide_unpack _); vm_compute; exact I
     | exact flips_hatch_example |].
  split; [exact Hrun | exact Hext].
Defined.

(** The runs of the scenarios on the reference instance. *)

Example arc_example_run :
  let e' := snd (upright.upright reference.arc_example) in
  upright.points (upright.dxf e') !! "center" = Some (upright.mkVec3 (-1) 1 0)
  /\ upright.points (upright.dxf e') !! "extrusion" = None
  /\ upright.scalars (upright.dxf e') !! "start_angle" = Some 60%float
  /\ upright.scalars (upright.dxf e') !! "end_angle" = Some 150%float.
Proof. vm_compute. repeat split; reflexivity. Qed.

Example circle_example_run :
  let e' := snd (upright.upright reference.circle_example) in
  upright.points (upright.dxf e') !! "center" = Some (upright.mkVec3 (-1) 2 0)
  /\ upright.points (upright.dxf e') !! "extrusion" = None
  /\ upright.scalars (upright.dxf e') !! "thickness" = Some (-2)%float
  /\ upright.scalars (upright.dxf e') !! "radius" = Some 5%float.
Proof. vm_compute. repeat split; reflexivity. Qed.

Example text_example_run :
  upright.upright reference.text_example = (Ok tt, reference.text_example).
Proof. vm_compute. reflexivity. Qed.

Example upright_all_run :
  upright.upright_all [reference.arc_canonical; reference.hatch_example]
  = (Ok tt, [reference.arc_canonical; reference.hatch_example]).
Proof. vm_compute. reflexivity. Qed.

Example int_of_str_run :
  int_of_str " -1_000 " = Some (-1000)
  /\ int_of_str "+12" = Some 12
  /\ int_of_str "1__0" = None
  /\ int_of_str "12a" = None
  /\ int_of_str "" = None.
Proof. vm_compute. repeat split; reflexivity. Qed.

Example code_field_run :
  rjust 3 (str_int 5) = "  5"
  /\ rjust 3 (str_int (-5)) = " -5"
  /\ rjust 3 (str_int 100) = "100"
  /\ rjust 3 (str_int 1071) = "1071".
Proof. vm_compute. repeat split; reflexivity. Qed.

End examples.

(** * More of [types.py] *)

Section type_table_more.
Import types.

Lemma elem_of_range (a b c : Z) : c ∈ range a b <-> a <= c < b.
Proof.
  unfold range. rewrite list_elem_of_fmap. split.
  - intros (i & -> & Hi). apply elem_of_seq in Hi. lia.
  - intros Hc. exists (Z.to_nat (c - a)). split; [lia |].
    apply elem_of_seq. lia.
Qed.

Lemma tag_type_last_rule (c : Z) :
  tag_type c = default ustr (last_rule TYPE_RULES c).
Proof. unfold tag_type, TYPE_TABLE, table_get. by rewrite build_lookup. Qed.

(** Splitting on the membership tests of a rule cascade, each test read as a
    pair of bounds. *)
Ltac split_rules :=
  repeat (case_bool_decide;
          repeat match goal with
                 | H : _ ∈ range _ _ |- _ => apply elem_of_range in H
                 | H : ¬ _ ∈ range _ _ |- _ => rewrite elem_of_range in H
                 | H : _ ∈ [_] |- _ => apply list_elem_of_singleton in H
                 | H : ¬ _ ∈ [_] |- _ => rewrite list_elem_of_singleton in H
                 end;
          try lia).

Lemma tag_type_cases (c : Z) :
  (tag_type c = point_tuple <->
     10 <= c <= 19 \/ 110 <= c <= 112 \/ c = 210 \/ 1010 <= c <= 1019)
  /\ (tag_type c = float_ <->
     20 <= c <= 59 \/ 113 <= c <= 149 \/ 211 <= c <= 239 \/ 460 <= c <= 469
     \/ 1020 <= c <= 1059)
  /\ (tag_type c = int_ <->
     60 <= c <= 99 \/ 160 <= c <= 179 \/ 270 <= c <= 299 \/ 370 <= c <= 389
     \/ 400 <= c <= 409 \/ 420 <= c <= 429 \/ 440 <= c <= 459
     \/ 1060 <= c <= 1071)
  /\ (tag_type c = ustr <->
     c < 10 \/ 100 <= c <= 109 \/ 150 <= c <= 159 \/ 180 <= c <= 209
     \/ 240 <= c <= 269 \/ 300 <= c <= 369 \/ 390 <= c <= 399
     \/ 410 <= c <= 419 \/ 430 <= c <= 439 \/ 470 <= c <= 1009 \/ 1072 <= c).
Proof.
  rewrite tag_type_last_rule. unfold TYPE_RULES. cbn [last_rule fst snd].
  split_rules; cbn [default];
    (split; [| split; [| split]]); (split; [intros Heq; try discriminate Heq; lia | intros Hr; try reflexivity; lia]).
Qed.

(** X1. The caster of every code, by code range: the point codes, the float
    codes, the integer codes, and text for every other code, the negative
    ones and those above 1071 included. *)
Theorem tag_type_ranges (c : Z) :
  (tag_type c = point_tuple <->
     10 <= c <= 19 \/ 110 <= c <= 112 \/ c = 210 \/ 1010 <= c <= 1019)
  /\ (tag_type c = float_ <->
     20 <= c <= 59 \/ 113 <= c <= 149 \/ 211 <= c <= 239 \/ 460 <= c <= 469
     \/ 1020 <= c <= 1059)
  /\ (tag_type c = int_ <->
     60 <= c <= 99 \/ 160 <= c <= 179 \/ 270 <= c <= 299 \/ 370 <= c <= 389
     \/ 400 <= c <= 409 \/ 420 <= c <= 429 \/ 440 <= c <= 459
     \/ 1060 <= c <= 1071)
  /\ (tag_type c = ustr <->
     c < 10 \/ 100 <= c <= 109 \/ 150 <= c <= 159 \/ 180 <= c <= 209
     \/ 240 <= c <= 269 \/ 300 <= c <= 369 \/ 390 <= c <= 399
     \/ 410 <= c <= 419 \/ 430 <= c <= 439 \/ 470 <= c <= 1009 \/ 1072 <= c).
Proof.
  rewrite tag_type_last_rule. unfold TYPE_RULES. cbn [last_rule fst snd].
  split_rules; cbn [default];
    (split; [| split; [| split]]); (split; [intros Heq; try discriminate Heq; lia | intros Hr; try reflexivity; lia]).
Qed.

Lemma is_point_code_ranges (c : Z) :
  is_point_code c = true <->
  10 <= c <= 19 \/ 110 <= c <= 112 \/ c = 210 \/ 1010 <= c <= 1019.
Proof.
  unfold is_point_code, POINT_CODES.
  rewrite bool_decide_eq_true, elem_of_list_to_set.
  rewrite !elem_of_cons, elem_of_nil. lia.
Qed.

Lemma elem_of_POINTER_CODES (c : Z) :
  c ∈ POINTER_CODES <->
  320 <= c <= 369 \/ 390 <= c <= 399 \/ c = 480 \/ c = 481 \/ c = 1005.
Proof.
  unfold POINTER_CODES.
  rewrite elem_of_list_to_set, !elem_of_app, !elem_of_range.
  rewrite !elem_of_cons, elem_of_nil. lia.
Qed.

Lemma elem_of_HANDLE_CODES (c : Z) : c ∈ HANDLE_CODES <-> c = 5 \/ c = 105.
Proof.
  unfold HANDLE_CODES. rewrite elem_of_list_to_set, !elem_of_cons, elem_of_nil. lia.
Qed.

(** X2. The point codes are the codes of the point caster, and the two companion
    codes of a point code, 10 and 20 above it, are codes of the float
    caster: the records that [DXFVertex.dxftags] lays out after the first
    one are read back as floats. *)
Theorem point_codes_and_companions (c : Z) :
  (is_point_code c = true <-> tag_type c = point_tuple)
  /\ (is_point_code c = true ->
      tag_type (c + 10) = float_ /\ tag_type (c + 20) = float_
      /\ is_point_code (c + 10) = false /\ is_point_code (c + 20) = false).
Proof.
  split.
  - rewrite is_point_code_ranges. symmetry. apply tag_type_cases.
  - intros Hc. apply is_point_code_ranges in Hc.
    split; [apply tag_type_cases; lia |].
    split; [apply tag_type_cases; lia |].
    split; apply not_true_is_false; rewrite is_point_code_ranges; lia.
Qed.

(** X3. Structure codes carry text: every group marker (0, 100, 102, 1001) and
    every handle or pointer code is outside the type table, so its value is
    decoded by the text caster; [HEX_HANDLE_CODES] is the union of the handle
    and the pointer codes; no pointer code is a point code; the binary flag
    codes 70 and 90 are integer codes. *)
Theorem structure_codes_are_text (c : Z) :
  (c ∈ GROUP_MARKERS -> tag_type c = ustr)
  /\ (c ∈ HEX_HANDLE_CODES <-> c ∈ HANDLE_CODES \/ c ∈ POINTER_CODES)
  /\ (c ∈ HEX_HANDLE_CODES -> tag_type c = ustr)
  /\ (is_pointer_code c = true <->
      320 <= c <= 369 \/ 390 <= c <= 399 \/ c = 480 \/ c = 481 \/ c = 1005)
  /\ (is_pointer_code c = true -> is_point_code c = false)
  /\ (c ∈ BINARY_FLAGS -> tag_type c = int_).
Proof.
  assert (c ∈ HEX_HANDLE_CODES <-> c ∈ HANDLE_CODES \/ c ∈ POINTER_CODES) as Hhex.
  { unfold HEX_HANDLE_CODES.
    by rewrite elem_of_list_to_set, elem_of_app, !elem_of_elements. }
  split.
  { unfold GROUP_MARKERS, GENERAL_MARKER, SUBCLASS_MARKER, APP_DATA_MARKER,
      EXT_DATA_MARKER.
    rewrite elem_of_list_to_set, !elem_of_cons, elem_of_nil.
    intros Hm. apply tag_type_cases. lia. }
  split; [exact Hhex |].
  split.
  { rewrite Hhex, elem_of_HANDLE_CODES, elem_of_POINTER_CODES.
    intros Hh. apply tag_type_cases. lia. }
  split.
  { unfold is_pointer_code. rewrite bool_decide_eq_true. apply elem_of_POINTER_CODES. }
  split.
  { unfold is_pointer_code. rewrite bool_decide_eq_true, elem_of_POINTER_CODES.
    intros Hp. apply not_true_is_false. rewrite is_point_code_ranges. lia. }
  unfold BINARY_FLAGS. rewrite elem_of_list_to_set, !elem_of_cons, elem_of_nil.
  intros Hb. apply tag_type_cases. lia.
Qed.

(** X4. Registering one more rule after the others: its codes get its caster,
    every other code keeps the caster it had; and a code has an entry in the
    table exactly when some rule contains it. *)
Theorem build_type_table_register (rules : list (caster * list Z)) (d : caster)
    (codes : list Z) (c : Z) :
  _build_type_table (rules ++ [(d, codes)]) !! c
  = (if bool_decide (c ∈ codes) then Some d else _build_type_table rules !! c)
  /\ (is_Some (_build_type_table rules !! c) <->
      exists rule, rule ∈ rules /\ c ∈ rule.2)
  /\ _build_type_table [] !! c = None.
Proof.
  split; [| split; [| reflexivity]].
  - rewrite !build_lookup, last_rule_app. cbn [last_rule fst snd].
    by destruct (bool_decide (c ∈ codes)).
  - rewrite build_lookup. induction rules as [|rule rest IH]; cbn [last_rule].
    + split; [intros [? [=]] | intros (r & Hr & _); by apply elem_of_nil in Hr].
    + destruct (last_rule rest c) as [d'|] eqn:Hrest.
      * split; [| eauto]. intros _. destruct IH as [IH _].
        destruct IH as (r & Hr & Hc); [eauto |]. exists r. split; [by right | done].
      * case_bool_decide as Hc.
        -- split; [| eauto]. intros _. exists rule. split; [by left | done].
        -- split; [intros [? [=]] |]. intros (r & Hr & Hcr).
           apply elem_of_cons in Hr as [-> | Hr]; [done |].
           destruct IH as [_ IH]. destruct IH as [? [=]]. eauto.
Qed.

End type_table_more.

(** ** Reading a record back *)

Section records_read_back.
Import types.
Context `{PyFloatOps}.

Lemma lstrip_nonspace (l : list ascii) :
  Forall (fun ch => is_space ch = false) l -> lstrip l = l.
Proof. destruct 1 as [|ch l Hch _]; cbn [lstrip]; [done | by rewrite Hch]. Qed.

Lemma lstrip_spaces (k : nat) (l : list ascii) :
  lstrip (repeat " "%char k ++ l) = lstrip l.
Proof. induction k as [|k IH]; [done | exact IH]. Qed.

Lemma strip_padded (k : nat) (l : list ascii) :
  Forall (fun ch => is_space ch = false) l ->
  strip (repeat " "%char k ++ l) = l.
Proof.
  intros Hl. unfold strip.
  rewrite lstrip_spaces, (lstrip_nonspace l Hl).
  rewrite lstrip_nonspace by (by apply Forall_rev).
  apply rev_involutive.
Qed.

Lemma list_ascii_of_string_app (a b : string) :
  list_ascii_of_string (a ++ b) = list_ascii_of_string a ++ list_ascii_of_string b.
Proof.
  induction a as [|ch a IH]; [reflexivity |].
  change (ch :: list_ascii_of_string (a ++ b)
          = ch :: (list_ascii_of_string a ++ list_ascii_of_string b)).
  by rewrite IH.
Qed.

Lemma digits_go_digit (acc : Z) (prev : bool) (ch : ascii) (l : list ascii) :
  is_digit ch = true ->
  digits_go acc prev (ch :: l) = digits_go (10 * acc + digit_val ch) true l.
Proof. intros Hd. cbn [digits_go]. by rewrite Hd. Qed.

Lemma uint_chars_nonspace (d : Decimal.uint) :
  Forall (fun ch => is_space ch = false)
         (list_ascii_of_string (NilEmpty.string_of_uint d)).
Proof.
  induction d; cbn [NilEmpty.string_of_uint list_ascii_of_string];
    constructor; done.
Qed.

(** Reading the digits of a numeral from left to right, continuing from a
    positive accumulator and starting from zero. *)
Lemma digits_go_acc (d : Decimal.uint) (p : positive) :
  digits_go (Zpos p) true (list_ascii_of_string (NilEmpty.string_of_uint d))
  = Some (Zpos (Pos.of_uint_acc d p)).
Proof.
  revert p.
  induction d as [|d IH|d IH|d IH|d IH|d IH|d IH|d IH|d IH|d IH|d IH]; intros p;
    cbn [NilEmpty.string_of_uint list_ascii_of_string Pos.of_uint_acc];
    [reflexivity | ..];
    rewrite digits_go_digit by reflexivity; rewrite <- IH; f_equal;
    vm_compute digit_val; lia.
Qed.

Lemma digits_go_zero (d : Decimal.uint) :
  digits_go 0 true (list_ascii_of_string (NilEmpty.string_of_uint d))
  = Some (Z.of_N (Pos.of_uint d)).
Proof.
  induction d as [|d IH|d IH|d IH|d IH|d IH|d IH|d IH|d IH|d IH|d IH];
    cbn [NilEmpty.string_of_uint list_ascii_of_string Pos.of_uint];
    [reflexivity | ..];
    rewrite digits_go_digit by reflexivity;
    [exact IH | ..];
    cbn [Z.of_N]; rewrite <- digits_go_acc; reflexivity.
Qed.

Lemma digits_go_start (d : Decimal.uint) :
  d <> Decimal.Nil ->
  digits_go 0 false (list_ascii_of_string (NilEmpty.string_of_uint d))
  = Some (Z.of_N (Pos.of_uint d)).
Proof.
  intros Hd. rewrite <- digits_go_zero.
  destruct d; [done | ..];
    cbn [NilEmpty.string_of_uint list_ascii_of_string];
    by rewrite !digits_go_digit by reflexivity.
Qed.

(** [int()] reads back what [str()] and [%3d] print for an integer. *)
Lemma int_of_str_padded (k : nat) (n : Z) :
  int_of_str (spaces k ++ str_int n) = Some n.
Proof.
  unfold int_of_str, spaces.
  rewrite list_ascii_of_string_app, list_ascii_of_string_of_list_ascii.
  unfold str_int, NilZero.string_of_int, NilZero.string_of_uint.
  destruct n as [|p|p]; cbn [Z.to_int].
  - rewrite strip_padded by (repeat constructor). reflexivity.
  - pose proof (DecimalPos.Unsigned.to_uint_nonnil p) as Hnil.
    pose proof (DecimalPos.Unsigned.of_to p) as Hof.
    pose proof (uint_chars_nonspace (Pos.to_uint p)) as Hsp.
    pose proof (digits_go_start (Pos.to_uint p) Hnil) as Hgo.
    rewrite Hof in Hgo. cbn [Z.of_N] in Hgo.
    destruct (Pos.to_uint p); [done | ..];
      rewrite strip_padded by exact Hsp;
      cbn [NilEmpty.string_of_uint list_ascii_of_string] in *; exact Hgo.
  - pose proof (DecimalPos.Unsigned.to_uint_nonnil p) as Hnil.
    pose proof (DecimalPos.Unsigned.of_to p) as Hof.
    pose proof (uint_chars_nonspace (Pos.to_uint p)) as Hsp.
    pose proof (digits_go_start (Pos.to_uint p) Hnil) as Hgo.
    rewrite Hof in Hgo. cbn [Z.of_N] in Hgo.
    assert (NilEmpty.string_of_uint (Pos.to_uint p)
            = match Pos.to_uint p with
              | Decimal.Nil => "0"%string
              | _ => NilEmpty.string_of_uint (Pos.to_uint p)
              end) as <-.
    { destruct (Pos.to_uint p); [done | reflexivity ..]. }
    cbn [list_ascii_of_string].
    rewrite strip_padded by (constructor; [reflexivity | exact Hsp]).
    cbn. rewrite Hgo. reflexivity.
Qed.

(** X5. Round trip of a text record.  The code field that [%3d] prints is read
    back by [int()] as the code, padding included; the value line of an
    integer tag is decoded back to the integer by the caster of an integer
    code, and the value line of a text tag to the text by the text caster. *)
Theorem record_round_trip (code n : Z) (s : string) :
  DXFTag_dxfstr (mkDXFTag (Some code) (VInt n))
  = Ok (rjust 3 (str_int code) ++ nl ++ str_int n ++ nl)%string
  /\ int_of_str (rjust 3 (str_int code)) = Some code
  /\ int_of_str (str_int n) = Some n
  /\ (tag_type code = int_ ->
      cast_tag_value code (RStr (str_int n)) = Ok (VInt n))
  /\ DXFTag_dxfstr (mkDXFTag (Some code) (VStr s))
     = Ok (rjust 3 (str_int code) ++ nl ++ s ++ nl)%string
  /\ (tag_type code = ustr -> cast_tag_value code (RStr s) = Ok (VStr s)).
Proof.
  assert (int_of_str (str_int n) = Some n) as Hn by apply (int_of_str_padded 0).
  unfold DXFTag_dxfstr. cbn [tag_code tag_value]. rewrite !format_tag_ok.
  split; [reflexivity |].
  split; [apply int_of_str_padded |].
  split; [exact Hn |].
  split.
  { intros Hc. unfold cast_tag_value, cast_tag_value_with. fold (tag_type code).
    rewrite Hc. cbn [call py_int]. by rewrite Hn. }
  split; [reflexivity |].
  intros Hc. unfold cast_tag_value, cast_tag_value_with. fold (tag_type code).
  by rewrite Hc.
Qed.

Lemma rmapM_length {A B} (f : A -> result B) (l : list A) (out : list B) :
  rmapM f l = Ok out -> length out = length l.
Proof.
  revert out. induction l as [|a l IH]; intros out; cbn [rmapM rbind].
  - by intros [= <-].
  - destruct (f a) as [b|]; cbn [rbind]; [| done].
    destruct (rmapM f l) as [bs|]; cbn [rbind]; [| done].
    intros [= <-]. cbn [length]. by rewrite (IH bs).
Qed.

Lemma rmapM_floats (p : list float) : rmapM py_float (map RFloat p) = Ok p.
Proof.
  induction p as [|x p IH]; [reflexivity |].
  cbn [map rmapM py_float rbind]. by rewrite IH.
Qed.

(** X6. [point_tuple] on a sequence of floats returns the floats as they are, of
    any length; on a sequence it returns as many components as the sequence
    has items, or raises; on a number it raises [TypeError].  So the caster
    of a point code decodes a float sequence to the point of these floats. *)
Theorem point_tuple_floats (c : Z) (p : list float) :
  run_point_tuple (RSeq (map RFloat p)) = Ok p
  /\ (tag_type c = point_tuple ->
      cast_tag_value c (RSeq (map RFloat p)) = Ok (VPoint p))
  /\ (forall (l : list raw) (q : list float),
        run_point_tuple (RSeq l) = Ok q -> length q = length l)
  /\ (forall n : Z, run_point_tuple (RInt n) = Raise TypeError)
  /\ (forall f : float, run_point_tuple (RFloat f) = Raise TypeError).
Proof.
  assert (run_point_tuple (RSeq (map RFloat p)) = Ok p) as Hp.
  { unfold run_point_tuple. cbn [py_iter rbind]. apply rmapM_floats. }
  split; [exact Hp |].
  split.
  { intros Hc. unfold cast_tag_value, cast_tag_value_with. fold (tag_type c).
    rewrite Hc. cbn [call]. by rewrite Hp. }
  split.
  { intros l q. unfold run_point_tuple. cbn [py_iter rbind]. apply rmapM_length. }
  split; reflexivity.
Qed.

(** X7. [DXFVertex.dxfstr] for any number of components: it never raises, it
    writes at most three records, the components after the third are left
    out, and a vertex without components gives the empty text.  The codes of
    the records are the first of [c], [c + 10], [c + 20]. *)
Theorem vertex_dxfstr_any (c : Z) (value : list float) :
  DXFVertex_dxfstr (mkDXFVertex c value)
  = DXFVertex_dxfstr (mkDXFVertex c (take 3 value))
  /\ (exists out, DXFVertex_dxfstr (mkDXFVertex c value) = Ok out)
  /\ length (dxftags (mkDXFVertex c value)) = Nat.min 3 (length value)
  /\ map fst (dxftags (mkDXFVertex c value))
     = take (length value) [c; c + 10; c + 20]
  /\ map snd (dxftags (mkDXFVertex c value)) = take 3 value
  /\ DXFVertex_dxfstr (mkDXFVertex c []) = Ok EmptyString.
Proof.
  unfold DXFVertex_dxfstr. rewrite !join_records_ok.
  split.
  { destruct value as [|x [|y [|z [|w rest]]]]; reflexivity. }
  split; [eauto |].
  split.
  { destruct value as [|x [|y [|z [|w rest]]]]; reflexivity. }
  split.
  { destruct value as [|x [|y [|z [|w rest]]]]; reflexivity. }
  split; [| reflexivity].
  destruct value as [|x [|y [|z [|w rest]]]]; reflexivity.
Qed.

End records_read_back.

(** * More of [upright.py] *)

Section upright_more.
Import upright.
Context `{VecOps} `{AttribDefaults} `{DXFConst}.

(** ** What a tool may write *)

Section frame.
Variables P S : gset string.

Lemma preserves_ret {A} (a : A) : preserves P S (ret a).
Proof. by intros ns. Qed.

Lemma preserves_lift {A} (r : result A) : preserves P S (lift r).
Proof. by intros ns. Qed.

Lemma preserves_bind {A B} (m : M A) (k : A -> M B) :
  preserves P S m -> (forall a, preserves P S (k a)) -> preserves P S (bind m k).
Proof.
  intros Hm Hk ns. unfold bind. specialize (Hm ns).
  destruct (m ns) as [[a | x] ns1]; cbn [snd] in *; [| exact Hm].
  destruct Hm as (Ho & Hp & Hs). destruct (Hk a ns1) as (Ho' & Hp' & Hs').
  split; [congruence |].
  split; intros key Hkey; [rewrite Hp' | rewrite Hs']; auto.
Qed.

Lemma preserves_hasattr_point name : preserves P S (hasattr_point name).
Proof. by intros ns. Qed.
Lemma preserves_hasattr_scalar name : preserves P S (hasattr_scalar name).
Proof. by intros ns. Qed.
Lemma preserves_getattr_point name : preserves P S (getattr_point name).
Proof. by intros ns. Qed.
Lemma preserves_getattr_scalar name : preserves P S (getattr_scalar name).
Proof. by intros ns. Qed.

Lemma preserves_setattr_point name v : name ∈ P -> preserves P S (setattr_point name v).
Proof.
  intros Hn ns. cbn. split; [done |]. split; [| done].
  intros k Hk. apply lookup_insert_ne. by intros ->.
Qed.

Lemma preserves_setattr_scalar name v : name ∈ S -> preserves P S (setattr_scalar name v).
Proof.
  intros Hn ns. cbn. split; [done |]. split; [done |].
  intros k Hk. apply lookup_insert_ne. by intros ->.
Qed.

Lemma preserves_discard_point name : name ∈ P -> preserves P S (discard_point name).
Proof.
  intros Hn ns. cbn. split; [done |]. split; [| done].
  intros k Hk. apply lookup_delete_ne. by intros ->.
Qed.

Lemma preserves_for_each (names : list string) (body : string -> M unit) :
  (forall name, name ∈ names -> preserves P S (body name)) ->
  preserves P S (for_each names body).
Proof.
  induction names as [|name rest IH]; intros Hb; cbn [for_each].
  - apply preserves_ret.
  - apply preserves_bind; [apply Hb; by left |].
    intros _. apply IH. intros n Hn. apply Hb. by right.
Qed.

End frame.

Create HintDb frame.
#[local] Hint Resolve preserves_ret preserves_lift preserves_hasattr_point
  preserves_hasattr_scalar preserves_getattr_point preserves_getattr_scalar
  preserves_setattr_point preserves_setattr_scalar preserves_discard_point : frame.

Ltac frame_step :=
  lazymatch goal with
  | |- preserves _ _ (bind _ _) => apply preserves_bind; [| intros ?; cbv beta]
  | |- preserves _ _ (if ?b then _ else _) => destruct b
  | |- _ => solve [eauto with frame]
  end.

Lemma in_written_points (name : string) :
  name = "center" \/ name = "extrusion" \/ name ∈ VERTEXNAMES ->
  name ∈ written_points.
Proof. unfold written_points. set_unfold. tauto. Qed.

Lemma in_written_scalars (name : string) :
  name ∈ ["thickness"; "start_angle"; "end_angle"; "start_param"; "end_param"] ->
  name ∈ written_scalars.
Proof. unfold written_scalars. set_unfold. tauto. Qed.

Lemma preserves_flip_thickness : preserves written_points written_scalars _flip_thickness.
Proof.
  unfold _flip_thickness. repeat frame_step.
  apply preserves_setattr_scalar, in_written_scalars. set_unfold. tauto.
Qed.

Lemma preserves_flip_existing_vertex (name : string) :
  name ∈ VERTEXNAMES ->
  preserves written_points written_scalars (_flip_existing_vertex name).
Proof.
  intros Hn. unfold _flip_existing_vertex. repeat frame_step.
  apply preserves_setattr_point, in_written_points. auto.
Qed.

Lemma preserves_flip_circle : preserves written_points written_scalars _flip_circle.
Proof.
  unfold _flip_circle. repeat frame_step.
  - apply preserves_setattr_point, in_written_points. auto.
  - apply preserves_flip_thickness.
  - apply preserves_discard_point, in_written_points. auto.
Qed.

Lemma preserves_flip_arc : preserves written_points written_scalars _flip_arc.
Proof.
  unfold _flip_arc. apply preserves_bind; [apply preserves_flip_circle | intros _].
  repeat frame_step;
    apply preserves_setattr_scalar, in_written_scalars; set_unfold; tauto.
Qed.

Lemma preserves_flip_solid : preserves written_points written_scalars _flip_solid.
Proof.
  unfold _flip_solid. apply preserves_bind; [| intros _].
  - apply preserves_for_each. apply preserves_flip_existing_vertex.
  - apply preserves_bind; [apply preserves_flip_thickness | intros _].
    apply preserves_discard_point, in_written_points. auto.
Qed.

Lemma preserves_flip_ellipse : preserves written_points written_scalars _flip_ellipse.
Proof.
  unfold _flip_ellipse. repeat frame_step.
  - apply preserves_setattr_scalar, in_written_scalars. set_unfold. tauto.
  - apply preserves_setattr_scalar, in_written_scalars. set_unfold. tauto.
  - apply preserves_discard_point, in_written_points. auto.
Qed.

(** The five entries of [SIMPLE_UPRIGHT_TOOLS]. *)
Lemma simple_tools_inv (k : string) (tool : M unit) :
  SIMPLE_UPRIGHT_TOOLS !! k = Some tool ->
  (k = "CIRCLE" /\ tool = _flip_circle)
  \/ (k = "ARC" /\ tool = _flip_arc)
  \/ ((k = "SOLID" \/ k = "TRACE") /\ tool = _flip_solid)
  \/ (k = "ELLIPSE" /\ tool = _flip_ellipse).
Proof.
  unfold SIMPLE_UPRIGHT_TOOLS. rewrite !lookup_insert, lookup_empty.
  repeat case_decide; intros [= <-]; subst; auto 10.
Qed.

Lemma preserves_simple_tool (k : string) (tool : M unit) :
  SIMPLE_UPRIGHT_TOOLS !! k = Some tool ->
  preserves written_points written_scalars tool.
Proof.
  intros Ht. apply simple_tools_inv in Ht.
  destruct Ht as [[_ ->] | [[_ ->] | [[_ ->] | [_ ->]]]];
    auto using preserves_flip_circle, preserves_flip_arc, preserves_flip_solid,
      preserves_flip_ellipse.
Qed.

(** X8. [upright] never changes the kind of an entity, its flags or an attribute
    that is neither a point nor a float, and of the points and floats it
    writes only center, extrusion and the vertex names, and thickness and
    the two angles and parameters: every other attribute is as it was,
    whether the call returns or raises. *)
Theorem upright_frame (e : Entity) :
  dxftype (upright e).2 = dxftype e
  /\ is_alive (upright e).2 = is_alive e
  /\ is_graphic (upright e).2 = is_graphic e
  /\ others (dxf (upright e).2) = others (dxf e)
  /\ (forall k, k ∉ written_points ->
        points (dxf (upright e).2) !! k = points (dxf e) !! k)
  /\ (forall k, k ∉ written_scalars ->
        scalars (dxf (upright e).2) !! k = scalars (dxf e) !! k).
Proof.
  unfold upright.
  destruct (negb _); [done |].
  destruct (Vec3_of _) as [v | x]; [| done].
  destruct (normalize v) as [n | x]; [| done].
  destruct (negb _); [done |].
  destruct (SIMPLE_UPRIGHT_TOOLS !! dxftype e) as [tool |] eqn:Ht.
  - destruct (preserves_simple_tool _ _ Ht (dxf e)) as (Ho & Hp & Hs).
    unfold on_dxf. destruct (tool (dxf e)) as [r ns']. by cbn in *.
  - destruct (COMPLEX_UPRIGHT_TOOLS !! dxftype e) as [[tool |] |] eqn:Hc; [| done | done].
    assert (tool = _flip_complex_entity) as ->; [| done].
    revert Hc. unfold COMPLEX_UPRIGHT_TOOLS. rewrite !lookup_insert, lookup_empty.
    repeat case_decide; by intros [= <-].
Qed.

(** ** The outcome of each tool *)

Lemma insert_as_alter {A} (f : A -> A) (m : gmap string A) (k : string) (v : A) :
  m !! k = Some v -> <[k := f v]> m = alter f k m.
Proof.
  intros Hv. apply map_eq. intros j. destruct (decide (k = j)) as [-> | Hne].
  - by rewrite lookup_insert_eq, lookup_alter_eq, Hv.
  - by rewrite lookup_insert_ne, lookup_alter_ne.
Qed.

Lemma flip_existing_vertex_run (name : string) (ns : DXFNamespace) :
  _flip_existing_vertex name ns
  = (Ok tt,
     mkDXFNamespace (alter (to_wcs FLIPPED_Z_AXIS) name (points ns))
       (scalars ns) (others ns)).
Proof.
  unfold _flip_existing_vertex, bind, hasattr_point, getattr_point, lift, ret,
    setattr_point, read_point.
  destruct (points ns !! name) as [v|] eqn:Hv.
  - rewrite bool_decide_eq_true_2 by eauto. rewrite ?Hv.
    cbn [_flip_vertex Vec3_of rbind].
    by rewrite (insert_as_alter _ _ _ _ Hv).
  - rewrite bool_decide_eq_false_2 by (intros [? ?]; discriminate).
    rewrite alter_id by (intros x Hx; congruence).
    by rewrite namespace_eta.
Qed.

Lemma for_each_flip_run (names : list string) (ns : DXFNamespace) :
  for_each names _flip_existing_vertex ns
  = (Ok tt,
     mkDXFNamespace (flip_points names (points ns)) (scalars ns) (others ns)).
Proof.
  revert ns. induction names as [|name rest IH]; intros ns;
    cbn [for_each flip_points foldl].
  - unfold ret. by rewrite namespace_eta.
  - unfold bind. rewrite flip_existing_vertex_run, IH. reflexivity.
Qed.

Lemma flip_solid_run (ns : DXFNamespace) :
  _flip_solid ns = (Ok tt, solid_result ns).
Proof.
  unfold _flip_solid, bind. rewrite for_each_flip_run, flip_thickness_run.
  reflexivity.
Qed.

Lemma flip_points_is_Some (names : list string) (pts : gmap string Vec3) (k : string) :
  is_Some (flip_points names pts !! k) <-> is_Some (pts !! k).
Proof.
  revert pts. induction names as [|name rest IH]; intros pts;
    cbn [flip_points foldl]; [done |].
  fold (flip_points rest (alter (to_wcs FLIPPED_Z_AXIS) name pts)).
  rewrite IH. destruct (decide (name = k)) as [-> | Hne].
  - rewrite lookup_alter_eq. by rewrite fmap_is_Some.
  - by rewrite lookup_alter_ne.
Qed.

Lemma flip_points_other (names : list string) (pts : gmap string Vec3) (k : string) :
  k ∉ names -> flip_points names pts !! k = pts !! k.
Proof.
  revert pts. induction names as [|name rest IH]; intros pts Hk;
    cbn [flip_points foldl]; [done |].
  fold (flip_points rest (alter (to_wcs FLIPPED_Z_AXIS) name pts)).
  apply not_elem_of_cons in Hk as [Hne Hrest].
  rewrite IH by done. by rewrite lookup_alter_ne.
Qed.

Lemma flip_points_lookup (names : list string) (pts : gmap string Vec3) (k : string) :
  NoDup names -> k ∈ names ->
  flip_points names pts !! k = to_wcs FLIPPED_Z_AXIS <$> pts !! k.
Proof.
  revert pts. induction names as [|name rest IH]; intros pts Hnd Hk;
    cbn [flip_points foldl]; [by apply elem_of_nil in Hk |].
  fold (flip_points rest (alter (to_wcs FLIPPED_Z_AXIS) name pts)).
  apply NoDup_cons in Hnd as [Hfresh Hnd].
  apply elem_of_cons in Hk as [-> | Hk].
  - rewrite flip_points_other by done. apply lookup_alter_eq.
  - rewrite IH by done. rewrite lookup_alter_ne; [done |]. by intros ->.
Qed.

Lemma flip_ellipse_outcome (ns : DXFNamespace) :
  _flip_ellipse ns
  = match read_scalar ns "end_param", read_scalar ns "start_param" with
    | Some e, Some s => (Ok tt, ellipse_result s e ns)
    | _, _ => (Raise TypeError, ns)
    end.
Proof.
  unfold _flip_ellipse, bind, getattr_scalar, lift, setattr_scalar, discard_point.
  destruct (read_scalar ns "end_param") as [e|]; cbn [py_neg]; [| done].
  destruct (read_scalar ns "start_param") as [s|]; cbn [py_neg]; done.
Qed.

Lemma flip_circle_outcome (ns : DXFNamespace) :
  _flip_circle ns
  = match read_point ns "center" with
    | Some c => (Ok tt, circle_result c ns)
    | None => (Raise TypeError, ns)
    end.
Proof.
  destruct (read_point ns "center") as [c|] eqn:Hc.
  - by apply flip_circle_run.
  - by apply flip_circle_raise.
Qed.

(** An arc that raises after its circle part has its center flipped and its
    extrusion discarded already; with the end angle unreadable the new
    end angle is written too. *)
Lemma flip_arc_outcome (ns : DXFNamespace) :
  _flip_arc ns
  = match read_point ns "center" with
    | None => (Raise TypeError, ns)
    | Some c =>
        match read_scalar ns "start_angle", read_scalar ns "end_angle" with
        | Some s, Some e => (Ok tt, arc_result c s e ns)
        | None, _ => (Raise TypeError, circle_result c ns)
        | Some s, None =>
            (Raise TypeError,
             mkDXFNamespace (points (circle_result c ns))
               (<["end_angle" := flip_deg s]> (scalars (circle_result c ns)))
               (others ns))
        end
    end.
Proof.
  unfold _flip_arc, bind. rewrite flip_circle_outcome.
  destruct (read_point ns "center") as [c|]; [| done].
  unfold getattr_scalar, lift, setattr_scalar.
  rewrite !read_scalar_after_circle by done.
  destruct (read_scalar ns "start_angle") as [s|]; cbn [_flip_deg_angle]; [| done].
  destruct (read_scalar ns "end_angle") as [e|]; cbn [_flip_deg_angle]; done.
Qed.

(** After a simple tool the namespace is as it was or has no extrusion, and
    it has none when the tool returned. *)
Lemma simple_tool_extrusion (k : string) (tool : M unit) (ns : DXFNamespace) :
  SIMPLE_UPRIGHT_TOOLS !! k = Some tool ->
  ((tool ns).2 = ns /\ (tool ns).1 = Raise TypeError)
  \/ (points (tool ns).2 !! "extrusion" = None
      /\ ((tool ns).1 = Ok tt \/ ((tool ns).1 = Raise TypeError /\ k = "ARC"))).
Proof.
  intros Ht. apply simple_tools_inv in Ht.
  destruct Ht as [[_ ->] | [[Hk ->] | [[_ ->] | [_ ->]]]].
  - rewrite flip_circle_outcome. destruct (read_point ns "center"); cbn [fst snd].
    + right. split; [| by left]. unfold circle_result; cbn [points].
      apply lookup_delete_eq.
    + by left.
  - rewrite flip_arc_outcome.
    destruct (read_point ns "center"); cbn [fst snd]; [| by left].
    right.
    destruct (read_scalar ns "start_angle"); [destruct (read_scalar ns "end_angle") |];
      cbn [fst snd points arc_result circle_result];
      (split; [apply lookup_delete_eq | auto]).
  - rewrite flip_solid_run. right. split; [| by left].
    unfold solid_result; cbn [snd points]. apply lookup_delete_eq.
  - rewrite flip_ellipse_outcome.
    destruct (read_scalar ns "end_param"); [destruct (read_scalar ns "start_param") |];
      cbn [fst snd]; try (by left).
    right. split; [| by left]. unfold ellipse_result; cbn [points].
    apply lookup_delete_eq.
Qed.

(** ** Flipping twice *)

Lemma float_opp_involutive (x : float) : (- - x)%float = x.
Proof.
  apply Prim2SF_inj. rewrite !opp_spec.
  destruct (Prim2SF x) as [sg | sg | | sg m ex]; cbn; try reflexivity;
    by destruct sg.
Qed.

Lemma neg_thickness_twice (m : gmap string float) :
  neg_thickness (neg_thickness m) = m.
Proof.
  unfold neg_thickness. destruct (m !! "thickness") as [t|] eqn:Ht.
  - rewrite lookup_insert_eq, insert_insert_eq, float_opp_involutive.
    by apply insert_id.
  - by rewrite Ht.
Qed.

(** X12. The tools undo themselves where no rounding is involved: negating the
    thickness twice gives the namespace back, and an ellipse that is flipped
    twice has its two parameters back, every other float and every other
    attribute but the discarded extrusion being as it was. *)
Theorem flip_twice (ns : DXFNamespace) :
  (_flip_thickness ;;; _flip_thickness) ns = (Ok tt, ns)
  /\ (forall s e : float,
        read_scalar ns "start_param" = Some s ->
        read_scalar ns "end_param" = Some e ->
        exists ns2,
          (_flip_ellipse ;;; _flip_ellipse) ns = (Ok tt, ns2)
          /\ scalars ns2 !! "start_param" = Some s
          /\ scalars ns2 !! "end_param" = Some e
          /\ (forall k, k <> "start_param" -> k <> "end_param" ->
                scalars ns2 !! k = scalars ns !! k)
          /\ points ns2 = delete "extrusion" (points ns)
          /\ others ns2 = others ns).
Proof.
  split.
  { unfold bind. rewrite !flip_thickness_run. cbn [points scalars others].
    by rewrite neg_thickness_twice, namespace_eta. }
  intros s e Hs He. unfold bind. rewrite (flip_ellipse_run ns s e Hs He).
  assert (read_scalar (ellipse_result s e ns) "start_param" = Some (- e)%float) as Hs2.
  { unfold read_scalar, ellipse_result; cbn [scalars]. by rewrite lookup_insert_eq. }
  assert (read_scalar (ellipse_result s e ns) "end_param" = Some (- s)%float) as He2.
  { unfold read_scalar, ellipse_result; cbn [scalars].
    rewrite lookup_insert_ne by done. by rewrite lookup_insert_eq. }
  rewrite (flip_ellipse_run _ _ _ Hs2 He2).
  eexists. split; [reflexivity |].
  unfold ellipse_result; cbn [points scalars others].
  rewrite !float_opp_involutive.
  split; [by rewrite lookup_insert_eq |].
  split; [rewrite lookup_insert_ne by done; by rewrite lookup_insert_eq |].
  split; [intros k Hk1 Hk2; by rewrite !lookup_insert_ne |].
  split; [| done].
  apply map_eq. intros k. destruct (decide (k = "extrusion")) as [-> | Hne].
  - by rewrite !lookup_delete_eq.
  - by rewrite !lookup_delete_ne.
Qed.

(** ** Calls of [upright] *)

Lemma upright_cases (e : Entity) :
  upright e = (Ok tt, e)
  \/ (exists x, normalize_raises e x /\ upright e = (Raise x, e))
  \/ (flips e /\ exists tool, SIMPLE_UPRIGHT_TOOLS !! dxftype e = Some tool
                              /\ upright e = on_dxf tool e).
Proof.
  destruct (is_graphic e) eqn:Hg;
    [| left; unfold upright; by rewrite Hg].
  destruct (is_alive e) eqn:Ha;
    [| left; unfold upright; by rewrite Hg, Ha].
  destruct (points (dxf e) !! "extrusion") as [x|] eqn:Hx;
    [| left; by apply upright_no_extrusion].
  destruct (normalize x) as [n | exc] eqn:Hn.
  2:{ right; left. exists exc.
      assert (normalize_raises e exc) as Hr by (split; [done | split; [done | eauto]]).
      split; [exact Hr | by apply upright_normalize_raises]. }
  destruct (isclose n FLIPPED_Z_AXIS) eqn:Hclose.
  - assert (flips e) as Hf by (split; [done | split; [done | eauto 6]]).
    rewrite (upright_dispatch e Hf).
    destruct (SIMPLE_UPRIGHT_TOOLS !! dxftype e) as [tool |] eqn:Ht;
      [right; right; eauto |].
    left. destruct (COMPLEX_UPRIGHT_TOOLS !! dxftype e) as [[tool |] |] eqn:Hc;
      [| done | done].
    revert Hc. unfold COMPLEX_UPRIGHT_TOOLS. rewrite !lookup_insert, lookup_empty.
    repeat case_decide; by intros [= <-].
  - left. unfold upright. rewrite Hg, Ha, bool_decide_eq_true_2 by eauto.
    cbn [andb negb]. unfold read_point. rewrite Hx. cbn [Vec3_of].
    by rewrite Hn, Hclose.
Qed.

Lemma on_dxf_eq (tool : M unit) (e : Entity) :
  on_dxf tool e = ((tool (dxf e)).1, with_dxf e (tool (dxf e)).2).
Proof. unfold on_dxf. by destruct (tool (dxf e)). Qed.

Lemma upright_keeps_kind (e : Entity) : dxftype (upright e).2 = dxftype e.
Proof.
  destruct (upright_cases e) as [-> | [(x & _ & ->) | (_ & tool & _ & ->)]];
    [done | done |].
  by rewrite on_dxf_eq.
Qed.

Lemma upright_again (e : Entity) :
  (upright e).1 = Ok tt -> upright (upright e).2 = (Ok tt, (upright e).2).
Proof.
  destruct (upright_cases e) as [Hsame | [(x & _ & Hraise) | (Hf & tool & Ht & Hrun)]].
  - rewrite Hsame. cbn [snd]. by rewrite Hsame.
  - rewrite Hraise. discriminate.
  - rewrite Hrun, on_dxf_eq. cbn [fst snd].
    destruct (simple_tool_extrusion _ tool (dxf e) Ht) as [[_ Hr] | [Hgone _]].
    + rewrite Hr. discriminate.
    + intros _. by apply upright_no_extrusion.
Qed.

(** X9. [upright] is idempotent on every entity: the entity after two calls is
    the entity after one.  After a call that returned, a second call returns
    and changes nothing. *)
Theorem upright_idempotent (e : Entity) :
  (upright (upright e).2).2 = (upright e).2
  /\ ((upright e).1 = Ok tt -> upright (upright e).2 = (Ok tt, (upright e).2)).
Proof.
  destruct (upright_cases e) as [Hsame | [(x & _ & Hraise) | (Hf & tool & Ht & Hrun)]].
  - rewrite Hsame. cbn [fst snd]. by rewrite Hsame.
  - rewrite Hraise. cbn [fst snd]. rewrite Hraise. split; [done | discriminate].
  - rewrite Hrun, on_dxf_eq. cbn [fst snd].
    destruct (simple_tool_extrusion _ tool (dxf e) Ht) as [[Hns Hr] | [Hgone _]].
    + rewrite Hns, with_dxf_same, Hrun, on_dxf_eq, Hns, Hr. cbn [snd].
      split; [apply with_dxf_same | discriminate].
    + assert (upright (with_dxf e (tool (dxf e)).2)
              = (Ok tt, with_dxf e (tool (dxf e)).2)) as Hstop
        by (by apply upright_no_extrusion).
      by rewrite Hstop.
Qed.

Lemma flips_not_raises (e : Entity) (x : pyexc) :
  flips e -> normalize_raises e x -> False.
Proof.
  intros (_ & _ & v & n & Hv & Hn & _) (_ & _ & w & Hw & Hr). congruence.
Qed.

(** For an entity that goes on to its tool the only exception is
    [TypeError], raised exactly when an attribute the tool reads has no
    value. *)
Lemma upright_type_error (e : Entity) :
  flips e ->
  ((upright e).1 = Ok tt \/ (upright e).1 = Raise TypeError)
  /\ ((upright e).1 = Raise TypeError <-> flips e /\ unreadable e)
  /\ ((upright e).1 = Raise TypeError ->
      (upright e).2 = e \/ dxftype e = "ARC").
Proof.
  intros Hflips.
  destruct (upright_cases e) as [Hsame | [(y & Hy & _) | (Hf & tool & Ht & Hrun)]];
    [| by destruct (flips_not_raises e y) |].
  { rewrite Hsame. cbn [fst snd]. split; [by left |]. split; [| discriminate].
    split; [discriminate |]. intros [Hf Hun]. exfalso.
    rewrite (upright_dispatch e Hf) in Hsame. revert Hsame.
    destruct Hun as [[Hk Hc] | [[Hk Hc] | [Hk Hc]]]; rewrite Hk.
    - rewrite simple_tool_circle, on_dxf_eq, flip_circle_outcome, Hc. discriminate.
    - rewrite simple_tool_arc, on_dxf_eq, flip_arc_outcome.
      destruct (read_point (dxf e) "center"); [| discriminate].
      destruct (read_scalar (dxf e) "start_angle"); [| discriminate].
      destruct (read_scalar (dxf e) "end_angle"); [| discriminate].
      destruct Hc as [? | [? | ?]]; discriminate.
    - rewrite simple_tool_ellipse, on_dxf_eq, flip_ellipse_outcome.
      destruct (read_scalar (dxf e) "end_param"); [| discriminate].
      destruct (read_scalar (dxf e) "start_param"); [| discriminate].
      destruct Hc as [? | ?]; discriminate. }
  rewrite Hrun, on_dxf_eq. cbn [fst snd].
  pose proof (simple_tools_inv _ _ Ht) as Hinv. unfold unreadable.
  destruct Hinv as [[Hk ->] | [[Hk ->] | [[Hk ->] | [Hk ->]]]].
  - rewrite flip_circle_outcome.
    destruct (read_point (dxf e) "center") as [c|] eqn:Hc; cbn [fst snd].
    + split; [by left |]. split; [| discriminate].
      split; [discriminate |]. intros [_ Hun].
      destruct Hun as [[_ ?] | [[? _] | [? _]]]; congruence.
    + split; [by right |]. split; [| intros _; left; apply with_dxf_same].
      split; [| done]. intros _. split; [done |]. by left.
  - rewrite flip_arc_outcome.
    destruct (read_point (dxf e) "center") as [c|] eqn:Hc;
      [destruct (read_scalar (dxf e) "start_angle") as [s|] eqn:Hs;
       [destruct (read_scalar (dxf e) "end_angle") as [en|] eqn:Hen |] |];
      cbn [fst snd].
    + split; [by left |]. split; [| discriminate].
      split; [discriminate |]. intros [_ Hun].
      destruct Hun as [[? _] | [[_ [? | [? | ?]]] | [? _]]]; congruence.
    + split; [by right |]. split; [| by right].
      split; [| done]. intros _. split; [done |]. right; left. auto.
    + split; [by right |]. split; [| by right].
      split; [| done]. intros _. split; [done |]. right; left. auto.
    + split; [by right |]. split; [| by right].
      split; [| done]. intros _. split; [done |]. right; left. auto.
  - rewrite flip_solid_run. cbn [fst snd].
    split; [by left |]. split; [| discriminate].
    split; [discriminate |]. intros [_ Hun].
    destruct Hun as [[? _] | [[? _] | [? _]]]; destruct Hk; congruence.
  - rewrite flip_ellipse_outcome.
    destruct (read_scalar (dxf e) "end_param") as [en|] eqn:Hen;
      [destruct (read_scalar (dxf e) "start_param") as [s|] eqn:Hs |];
      cbn [fst snd].
    + split; [by left |]. split; [| discriminate].
      split; [discriminate |]. intros [_ Hun].
      destruct Hun as [[? _] | [[? _] | [_ [? | ?]]]]; congruence.
    + split; [by right |]. split; [| intros _; left; apply with_dxf_same].
      split; [| done]. intros _. split; [done |]. right; right. auto.
    + split; [by right |]. split; [| intros _; left; apply with_dxf_same].
      split; [| done]. intros _. split; [done |]. right; right. auto.
Qed.

(** X10. When [upright] raises.  It raises [x] exactly in two cases: the
    entity passes the first guard (graphical, alive, extrusion set) and
    normalizing its extrusion raises [x], whatever the kind of the entity
    and whether or not it has a tool; or [x] is [TypeError] and the entity
    is a circle, an arc or an ellipse that goes on to its tool and has an
    attribute the tool reads without a value.  In both cases the entity is
    as it was, unless it is an arc. *)
Theorem upright_raises_iff (e : Entity) (x : pyexc) :
  ((upright e).1 = Raise x <->
     normalize_raises e x \/ (x = TypeError /\ flips e /\ unreadable e))
  /\ ((upright e).1 = Raise x -> (upright e).2 = e \/ dxftype e = "ARC").
Proof.
  destruct (upright_cases e) as [Hsame | [(y & Hy & Hraise) | (Hf & tool & Ht & Hrun)]].
  - rewrite Hsame. cbn [fst snd]. split; [| discriminate].
    split; [discriminate |]. intros [Hr | (_ & Hf & Hun)]; exfalso.
    + rewrite (upright_normalize_raises e x Hr) in Hsame. discriminate.
    + destruct (upright_type_error e Hf) as (_ & Hiff & _).
      destruct Hiff as [_ Hiff]. rewrite Hsame in Hiff.
      by discriminate Hiff.
  - rewrite Hraise. cbn [fst snd]. split; [| by left].
    split.
    + intros [= ->]. by left.
    + intros [Hr | (_ & Hf & _)].
      * rewrite (upright_normalize_raises e x Hr) in Hraise. congruence.
      * by destruct (flips_not_raises e y).
  - destruct (upright_type_error e Hf) as (Hor & Hiff & Hatom).
    split.
    + split.
      * intros Hx. destruct Hor as [Hok | Hte]; [congruence |].
        right. split; [congruence |]. by apply Hiff.
      * intros [Hr | (-> & _ & Hun)]; [by destruct (flips_not_raises e x) |].
        apply Hiff. by split.
    + intros Hx. apply Hatom. destruct Hor as [Hok | Hte]; congruence.
Qed.

(** X11. A quad (SOLID or TRACE) that passes the guard: the call returns; every
    vertex attribute of the name list that is set is flipped, none is
    created; thickness is negated where it is set; the extrusion attribute
    is removed; the other points stay. *)
Theorem upright_solid (e : Entity) :
  dxftype e = "SOLID" \/ dxftype e = "TRACE" ->
  flips e ->
  upright e = (Ok tt, with_dxf e (solid_result (dxf e)))
  /\ points (solid_result (dxf e)) !! "extrusion" = None
  /\ scalars (solid_result (dxf e)) !! "thickness"
     = (fun t => (- t)%float) <$> scalars (dxf e) !! "thickness"
  /\ (forall k, is_Some (points (solid_result (dxf e)) !! k) ->
        is_Some (points (dxf e) !! k))
  /\ (NoDup VERTEXNAMES ->
      forall name, name ∈ VERTEXNAMES -> name <> "extrusion" ->
        points (solid_result (dxf e)) !! name
        = to_wcs FLIPPED_Z_AXIS <$> points (dxf e) !! name)
  /\ (forall k, k ∉ VERTEXNAMES -> k <> "extrusion" ->
        points (solid_result (dxf e)) !! k = points (dxf e) !! k).
Proof.
  intros Hk Hf.
  split.
  { rewrite (upright_dispatch e Hf).
    assert (SIMPLE_UPRIGHT_TOOLS !! dxftype e = Some _flip_solid) as ->
      by (destruct Hk as [-> | ->]; reflexivity).
    by rewrite on_dxf_eq, flip_solid_run. }
  unfold solid_result; cbn [points scalars].
  split; [apply lookup_delete_eq |].
  split; [apply neg_thickness_lookup |].
  split.
  { intros k. destruct (decide (k = "extrusion")) as [-> | Hne].
    - rewrite lookup_delete_eq. by intros [? ?].
    - rewrite lookup_delete_ne by done. apply flip_points_is_Some. }
  split.
  - intros Hnd name Hin Hne. rewrite lookup_delete_ne by done.
    by apply flip_points_lookup.
  - intros k Hnin Hne. rewrite lookup_delete_ne by done.
    by apply flip_points_other.
Qed.

(** ** The batch *)

Lemma upright_all_ok (l : list Entity) :
  Forall (fun e => (upright e).1 = Ok tt) l ->
  upright_all l = (Ok tt, map (fun e => (upright e).2) l).
Proof.
  induction 1 as [|e l He _ IH]; cbn [upright_all map]; [done |].
  destruct (upright e) as [[[] | x] e']; cbn [fst snd] in *; [| done].
  by rewrite IH.
Qed.

Lemma upright_all_fst_ok (l : list Entity) :
  (upright_all l).1 = Ok tt -> Forall (fun e => (upright e).1 = Ok tt) l.
Proof.
  induction l as [|e l IH]; cbn [upright_all]; [constructor |].
  destruct (upright e) as [[[] | x] e'] eqn:He; [| done].
  destruct (upright_all l) as [r rest]. cbn [fst] in *.
  intros Hr. constructor; [by rewrite He | auto].
Qed.

(** X13. [upright_all] keeps the number, the order and the kinds of the entities.
    When every call returns, the batch is the list of the single calls; and a
    batch that returned leaves, run again, everything as it is. *)
Theorem upright_all_each (l : list Entity) :
  length (upright_all l).2 = length l
  /\ map dxftype (upright_all l).2 = map dxftype l
  /\ ((upright_all l).1 = Ok tt <-> Forall (fun e => (upright e).1 = Ok tt) l)
  /\ ((upright_all l).1 = Ok tt ->
      (upright_all l).2 = map (fun e => (upright e).2) l
      /\ upright_all (upright_all l).2 = (Ok tt, (upright_all l).2)).
Proof.
  split; [| split; [| split]].
  - induction l as [|e l IH]; cbn [upright_all]; [done |].
    destruct (upright e) as [[[] | x] e'].
    + destruct (upright_all l) as [r rest]. cbn [snd length] in *. by rewrite IH.
    + done.
  - induction l as [|e l IH]; cbn [upright_all]; [done |].
    pose proof (upright_keeps_kind e) as Hk.
    destruct (upright e) as [[[] | x] e']; cbn [snd] in Hk.
    + destruct (upright_all l) as [r rest]. cbn [snd map] in *. by rewrite IH, Hk.
    + cbn [snd map]. by rewrite Hk.
  - split; [apply upright_all_fst_ok |]. intros Hall. by rewrite upright_all_ok.
  - intros Hok. apply upright_all_fst_ok in Hok.
    rewrite (upright_all_ok l Hok). cbn [snd]. split; [done |].
    rewrite upright_all_ok.
    + f_equal. rewrite map_map. apply map_ext_in. intros e He.
      apply list_elem_of_In in He.
      rewrite Forall_forall in Hok.
      by rewrite (upright_again e (Hok e He)).
    + apply Forall_forall. intros e' He'. apply list_elem_of_fmap in He'.
      destruct He' as (e & -> & He). rewrite Forall_forall in Hok.
      by rewrite (upright_again e (Hok e He)).
Qed.


End upright_more.

(** ** More runs on concrete inputs *)

Section more_examples.
Import reference.

Lemma flips_solid_example : upright.flips reference.solid_example.
Proof.
  split; [reflexivity |]. split; [reflexivity |].
  exists (upright.mkVec3 0 0 (-1)). eexists.
  split; [vm_compute; reflexivity |]. split; vm_compute; reflexivity.
Defined.

Lemma upright_solid_witness :
  upright.upright reference.solid_example
  = (Ok tt,
     upright.with_dxf reference.solid_example
       (upright.solid_result (upright.dxf reference.solid_example)))
  /\ upright.points (upright.solid_result (upright.dxf reference.solid_example))
       !! "vtx1"
     = upright.to_wcs upright.FLIPPED_Z_AXIS
         <$> upright.points (upright.dxf reference.solid_example) !! "vtx1"
  /\ upright.points (upright.solid_result (upright.dxf reference.solid_example))
       !! "vtx3" = None.
Proof.
  destruct (upright_solid reference.solid_example) as (Hrun & _ & _ & _ & Hflip & _);
    [by left | exact flips_solid_example |].
  split; [exact Hrun |]. split; [| vm_compute; reflexivity].
  apply Hflip; [| | done].
  - apply (bool_decide_unpack _). vm_compute. exact I.
  - apply (bool_decide_unpack _). vm_compute. exact I.
Defined.

Example solid_example_run :
  let e' := snd (upright.upright reference.solid_example) in
  upright.points (upright.dxf e') !! "vtx0" = Some (upright.mkVec3 0 0 0)
  /\ upright.points (upright.dxf e') !! "vtx1" = Some (upright.mkVec3 (-1) 0 0)
  /\ upright.points (upright.dxf e') !! "vtx2" = Some (upright.mkVec3 0 1 0)
  /\ upright.points (upright.dxf e') !! "vtx3" = None
  /\ upright.points (upright.dxf e') !! "extrusion" = None
  /\ upright.scalars (upright.dxf e') !! "thickness" = Some (-1)%float.
Proof. vm_compute. repeat split; reflexivity. Qed.


Example circle_without_center_run :
  @upright.upright vec_ops no_defaults dxf_const reference.circle_without_center
  = (Raise TypeError, reference.circle_without_center)
  /\ (upright.upright reference.circle_without_center).1 = Ok tt.
Proof. split; vm_compute; reflexivity. Qed.

Example record_run :
  int_of_str "  5" = Some 5
  /\ int_of_str " -5" = Some (-5)
  /\ int_of_str (rjust 3 (str_int 1071)) = Some 1071
  /\ types.tag_type 70 = types.int_
  /\ types.tag_type (-5) = types.ustr
  /\ types.tag_type 1072 = types.ustr.
Proof. vm_compute. repeat split; reflexivity. Qed.

End more_examples.
